(** * Story Point Sleuth: the statistics core of [Dashboard.tsx]

    A shallow embedding of the chart-data pipeline of
    [src/components/Dashboard.tsx] (time-window filter, record extraction,
    boxplot statistics, regression trend line, histogram) and the
    properties its specification states about it.

    Numbers.  JavaScript numbers are modelled by exact rationals [Q]; the
    values [NaN] and [+/-Infinity], which the code can only produce through
    a division, are added where a division occurs ([jsnum]).  Rounding of
    IEEE doubles and the sign of zero are not modelled.  Numeric equality
    ([===] on numbers) is [Qeq_bool], since one rational has several
    representations in [Q]. *)

From Stdlib Require Import String QArith Qminmax Qround Qabs ZArith List Bool Lia Lqa.
From Stdlib Require Import Sorted Permutation.
Import ListNotations.

Open Scope Q_scope.

(* ================================================================== *)
(** * JavaScript primitives *)

(** [a[i]]: an out-of-range index yields [undefined], here [None]. *)
Definition js_index {A : Type} (a : list A) (i : Z) : option A :=
  if (i <? 0)%Z then None else nth_error a (Z.to_nat i).

(** [Math.floor(n * p)] for an array length [n]. *)
Definition floor_mul (n : nat) (p : Q) : Z :=
  Qfloor (inject_Z (Z.of_nat n) * p).

(** [x > 0] and [x < y] on numbers; [x <= y] is [Qle_bool]. *)
Definition Qgt0 (x : Q) : bool := negb (Qle_bool x 0).
Definition Qlt_bool (x y : Q) : bool := negb (Qle_bool y x).

(** [a || b] for an optional number [a] and a number [b]: [undefined],
    [null] and [0] are falsy. *)
Definition js_or (a : option Q) (b : Q) : Q :=
  match a with
  | Some q => if Qeq_bool q 0 then b else q
  | None => b
  end.

(** A small option monad for computations that read array cells. *)
Definition obind {A B : Type} (m : option A) (k : A -> option B) : option B :=
  match m with
  | Some a => k a
  | None => None
  end.

Notation "x <- m ;; k" := (obind m (fun x => k))
  (at level 61, m at next level, right associativity).

(** [Array.prototype.sort((a, b) => a - b)]: a stable ascending sort. *)
Fixpoint insertNum (x : Q) (l : list Q) : list Q :=
  match l with
  | [] => [x]
  | y :: l' => if Qle_bool x y then x :: l else y :: insertNum x l'
  end.

Fixpoint sortNum (l : list Q) : list Q :=
  match l with
  | [] => []
  | x :: l' => insertNum x (sortNum l')
  end.

(* ================================================================== *)
(** * Boxplot statistics ([createBoxplotData], the [boxplotStats] map) *)

Record BoxplotStat : Type := mkBoxplotStat {
  q1 : Q;
  median : Q;
  q3 : Q;
  lowerWhisker : Q;
  upperWhisker : Q;
  outliers : list Q;
  count : nat;
  label : Q  (* the story-point value [sp] of the label [`${sp} SP`] *)
}.

(** The body of [labels.map((sp) => ...)] for one group.  [None] stands for
    a result in which some cell read was [undefined] (the JavaScript code
    would go on with [undefined] and [NaN] fields). *)
Definition boxplotStat (sp : Q) (group : list Q) : option BoxplotStat :=
  let hours := sortNum group in
  let n := length hours in
  let q1Index := floor_mul n (1 # 4) in
  let medianIndex := floor_mul n (1 # 2) in
  let q3Index := floor_mul n (3 # 4) in
  q1 <- js_index hours q1Index ;;
  median <- js_index hours medianIndex ;;
  q3 <- js_index hours q3Index ;;
  let iqr := q3 - q1 in
  first <- js_index hours 0 ;;
  last <- js_index hours (Z.of_nat n - 1) ;;
  let lowerWhisker := Qmax first (q1 - (3 # 2) * iqr) in
  let upperWhisker := Qmin last (q3 + (3 # 2) * iqr) in
  let outliers :=
    filter (fun h => Qlt_bool h lowerWhisker || Qlt_bool upperWhisker h) hours in
  Some (mkBoxplotStat q1 median q3 lowerWhisker upperWhisker outliers n sp).

(** The four stacked bar segments of the boxplot datasets. *)
Definition segments (st : BoxplotStat) : list Q :=
  [ q1 st - lowerWhisker st;
    median st - q1 st;
    q3 st - median st;
    upperWhisker st - q3 st ].

(* ================================================================== *)
(** * Dates

    A [Date] object is kept in broken-down form (the fields its getters
    return); its time value, the number of milliseconds since the epoch that
    [>=] compares, is computed by ECMAScript's [MakeDay], [MakeTime] and
    [MakeDate], which also normalise a month or a day left out of range by
    a setter.  Local time is taken to be UTC (no zone offset, no daylight
    saving) and the range limit of time values is not modelled. *)

Open Scope Z_scope.

Record JSDate : Type := mkDate {
  getFullYear : Z;
  getMonth : Z;        (* 0 .. 11 *)
  getDate : Z;         (* 1 .. 31 *)
  getHours : Z;
  getMinutes : Z;
  getSeconds : Z;
  getMilliseconds : Z
}.

Definition setHours (d : JSDate) (h : Z) : JSDate :=
  mkDate (getFullYear d) (getMonth d) (getDate d)
         h (getMinutes d) (getSeconds d) (getMilliseconds d).

Definition setDate (d : JSDate) (dt : Z) : JSDate :=
  mkDate (getFullYear d) (getMonth d) dt
         (getHours d) (getMinutes d) (getSeconds d) (getMilliseconds d).

Definition setMonth (d : JSDate) (m : Z) : JSDate :=
  mkDate (getFullYear d) m (getDate d)
         (getHours d) (getMinutes d) (getSeconds d) (getMilliseconds d).

Definition InLeapYear (y : Z) : bool :=
  ((y mod 4 =? 0) && negb (y mod 100 =? 0)) || (y mod 400 =? 0).

Definition DaysInYear (y : Z) : Z := if InLeapYear y then 366 else 365.

Definition DayFromYear (y : Z) : Z :=
  365 * (y - 1970) + (y - 1969) / 4 - (y - 1901) / 100 + (y - 1601) / 400.

(** Day number within its year of the first day of month [mn] (0 .. 11). *)
Definition DayWithinYearOfMonth (mn : Z) (leap : bool) : Z :=
  let l := if leap then 1 else 0 in
  match mn with
  | 0 => 0
  | 1 => 31
  | 2 => 59 + l
  | 3 => 90 + l
  | 4 => 120 + l
  | 5 => 151 + l
  | 6 => 181 + l
  | 7 => 212 + l
  | 8 => 243 + l
  | 9 => 273 + l
  | 10 => 304 + l
  | _ => 334 + l
  end.

Definition MakeDay (year month dt : Z) : Z :=
  let ym := year + month / 12 in
  let mn := month mod 12 in
  DayFromYear ym + DayWithinYearOfMonth mn (InLeapYear ym) + dt - 1.

Definition MakeTime (hour min sec ms : Z) : Z :=
  hour * 3600000 + min * 60000 + sec * 1000 + ms.

Definition msPerDay : Z := 86400000.

Definition MakeDate (day time : Z) : Z := day * msPerDay + time.

(** The time value of a date. *)
Definition valueOf (d : JSDate) : Z :=
  MakeDate (MakeDay (getFullYear d) (getMonth d) (getDate d))
           (MakeTime (getHours d) (getMinutes d) (getSeconds d)
                     (getMilliseconds d)).

Close Scope Z_scope.

(* ================================================================== *)
(** * Issues *)

(** The value of a field of unknown shape: a number, or anything else. *)
Inductive FieldValue : Type :=
| VNumber (q : Q)
| VOther.

Record TimeTracking : Type := mkTimeTracking {
  timeSpentSeconds : option Q
}.

(** [fields.worklog]; each work-log entry is kept as its
    [timeSpentSeconds]. *)
Record Worklog : Type := mkWorklog {
  worklogs : option (list Q)
}.

(** [JiraIssue], with the fields the chart pipeline reads.  [updated] is
    the time value of [new Date(issue.fields.updated)], [None] for a string
    that does not parse (an invalid date).  [otherFields] lists the remaining
    entries of [issue.fields] in the order [Object.keys] enumerates them; the
    five known story-point fields are left out of it, since the scan of
    [Object.keys] only runs when all five are falsy and then selects none of
    them. *)
Record JiraIssue : Type := mkIssue {
  key : string;
  summary : string;
  updated : option Z;
  customfield_10016 : option Q;
  customfield_10004 : option Q;
  customfield_10002 : option Q;
  customfield_10003 : option Q;
  customfield_10005 : option Q;
  timespent : option Q;
  timetracking : option TimeTracking;
  worklog : option Worklog;
  otherFields : list (string * FieldValue)
}.

(* ================================================================== *)
(** * Time-window filter ([filterIssuesByTime])

    The two readings of the wall clock that the function takes with
    [new Date()] are the arguments [now] and [cutoffDate] of the model; the
    source function has the parameters [issues] and [timeFilter] only. *)

Definition cutoffOf (now cutoffDate : JSDate) (timeFilter : string)
  : option JSDate :=
  if String.eqb timeFilter "1h" then
    Some (setHours cutoffDate (getHours now - 1))
  else if String.eqb timeFilter "1d" then
    Some (setDate cutoffDate (getDate now - 1))
  else if String.eqb timeFilter "1w" then
    Some (setDate cutoffDate (getDate now - 7))
  else if String.eqb timeFilter "1m" then
    Some (setMonth cutoffDate (getMonth now - 1))
  else if String.eqb timeFilter "3m" then
    Some (setMonth cutoffDate (getMonth now - 3))
  else None.

(** [updatedDate >= cutoffDate]; a comparison with an invalid date is
    false. *)
Definition updatedSince (cutoff : JSDate) (issue : JiraIssue) : bool :=
  match updated issue with
  | Some u => (valueOf cutoff <=? u)%Z
  | None => false
  end.

Definition filterIssuesByTime (now cutoffDate : JSDate)
    (issues : list JiraIssue) (timeFilter : string) : list JiraIssue :=
  if String.eqb timeFilter "all" then issues
  else
    match cutoffOf now cutoffDate timeFilter with
    | None => issues
    | Some cutoff => filter (updatedSince cutoff) issues
    end.

(* ================================================================== *)
(** * Record extraction ([processIssuesForCharts]) *)

Record ProcessedIssue : Type := mkProcessed {
  pkey : string;
  psummary : string;
  storyPoints : Q;
  timeSpentHours : Q
}.

(** The fallback scan: the entries of [issue.fields] whose key starts
    with [customfield_] and whose value is a number in (0, 100]. *)
Definition numericFields (issue : JiraIssue) : list (string * Q) :=
  flat_map
    (fun kv =>
       match snd kv with
       | VNumber v =>
           if Qgt0 v && Qle_bool v 100 then [(fst kv, v)] else []
       | VOther => []
       end)
    (filter (fun kv => String.prefix "customfield_" (fst kv))
            (otherFields issue)).

Definition extractStoryPoints (issue : JiraIssue) : Q :=
  let storyPoints :=
    js_or (customfield_10016 issue)
      (js_or (customfield_10004 issue)
         (js_or (customfield_10002 issue)
            (js_or (customfield_10003 issue)
               (js_or (customfield_10005 issue) 0)))) in
  if Qeq_bool storyPoints 0 then
    match numericFields issue with
    | (_, v) :: _ => v
    | [] => storyPoints
    end
  else storyPoints.

(** [worklogs.reduce((sum, worklog) => sum + worklog.timeSpentSeconds, 0)] *)
Definition sumSeconds (l : list Q) : Q := fold_left Qplus l 0.

(** [issue.fields.timetracking?.timeSpentSeconds] *)
Definition trackedSeconds (issue : JiraIssue) : option Q :=
  match timetracking issue with
  | Some tracking => timeSpentSeconds tracking
  | None => None
  end.

(** [issue.fields.worklog?.worklogs] *)
Definition worklogEntries (issue : JiraIssue) : option (list Q) :=
  match worklog issue with
  | Some w => worklogs w
  | None => None
  end.

(** The number a truthy optional number holds: the test [if (v)]. *)
Definition whenTruthy (v : option Q) : option Q :=
  match v with
  | Some q => if Qeq_bool q 0 then None else Some q
  | None => None
  end.

Definition extractTimeSpentHours (issue : JiraIssue) : Q :=
  match whenTruthy (timespent issue) with
  | Some s => s / 3600
  | None =>
      match whenTruthy (trackedSeconds issue) with
      | Some t => t / 3600
      | None =>
          match worklogEntries issue with
          | Some (e :: l) => sumSeconds (e :: l) / 3600
          | _ => 0
          end
      end
  end.

Definition extract (issue : JiraIssue) : ProcessedIssue :=
  mkProcessed (key issue) (summary issue)
              (extractStoryPoints issue) (extractTimeSpentHours issue).

Definition processIssuesForCharts (now cutoffDate : JSDate)
    (issues : list JiraIssue) (timeFilter : string) : list ProcessedIssue :=
  let filteredIssues := filterIssuesByTime now cutoffDate issues timeFilter in
  let processed := map extract filteredIssues in
  filter (fun issue => Qgt0 (storyPoints issue) || Qgt0 (timeSpentHours issue))
         processed.

(* ================================================================== *)
(** * Boxplot data ([createBoxplotData]) *)

(** [storyPointGroups]: an object used as a map from a story-point value
    to the array of hours pushed for it.  The two statements
    [if (!groups[sp]) groups[sp] = []] and [groups[sp].push(h)] are one
    step here. *)
Fixpoint pushGroup (groups : list (Q * list Q)) (sp h : Q)
  : list (Q * list Q) :=
  match groups with
  | [] => [(sp, [h])]
  | (k, v) :: rest =>
      if Qeq_bool k sp then (k, v ++ [h]) :: rest
      else (k, v) :: pushGroup rest sp h
  end.

Definition groupStep (groups : list (Q * list Q)) (issue : ProcessedIssue)
  : list (Q * list Q) :=
  if Qgt0 (storyPoints issue) && Qgt0 (timeSpentHours issue)
  then pushGroup groups (storyPoints issue) (timeSpentHours issue)
  else groups.

Definition storyPointGroups (processedIssues : list ProcessedIssue)
  : list (Q * list Q) :=
  fold_left groupStep processedIssues [].

(** [storyPointGroups[Number(sp)]] *)
Fixpoint lookupGroup (groups : list (Q * list Q)) (sp : Q)
  : option (list Q) :=
  match groups with
  | [] => None
  | (k, v) :: rest => if Qeq_bool k sp then Some v else lookupGroup rest sp
  end.

(** [xs.map(f)] for an [f] that may read an undefined cell. *)
Fixpoint mapM {A B : Type} (f : A -> option B) (l : list A)
  : option (list B) :=
  match l with
  | [] => Some []
  | x :: l' => y <- f x ;; ys <- mapM f l' ;; Some (y :: ys)
  end.

Record BoxplotData : Type := mkBoxplotData {
  bp_labels : list Q;
  bp_datasets : list (list Q);
  boxplotStats : list BoxplotStat
}.

Definition boxplotOfGroups (groups : list (Q * list Q))
  : option BoxplotData :=
  let labels := sortNum (map fst groups) in
  stats <- mapM (fun sp => hours <- lookupGroup groups sp ;;
                           boxplotStat sp hours) labels ;;
  let datasets :=
    [ map (fun stat => q1 stat - lowerWhisker stat) stats;
      map (fun stat => median stat - q1 stat) stats;
      map (fun stat => q3 stat - median stat) stats;
      map (fun stat => upperWhisker stat - q3 stat) stats ] in
  Some (mkBoxplotData (map label stats) datasets stats).

Definition createBoxplotData (now cutoffDate : JSDate)
    (issues : list JiraIssue) (timeFilter : string) : option BoxplotData :=
  let processedIssues :=
    processIssuesForCharts now cutoffDate issues timeFilter in
  boxplotOfGroups (storyPointGroups processedIssues).

(* ================================================================== *)
(** * Numbers with [NaN] and the infinities

    The results of a division: a rational, or one of the three special
    values of IEEE arithmetic. *)

Inductive jsnum : Type :=
| Fin (q : Q)
| PosInf
| NegInf
| NaN.

Definition jneg (a : jsnum) : jsnum :=
  match a with
  | Fin q => Fin (- q)
  | PosInf => NegInf
  | NegInf => PosInf
  | NaN => NaN
  end.

Definition jadd (a b : jsnum) : jsnum :=
  match a, b with
  | NaN, _ | _, NaN => NaN
  | Fin x, Fin y => Fin (x + y)
  | PosInf, NegInf | NegInf, PosInf => NaN
  | PosInf, _ | _, PosInf => PosInf
  | NegInf, _ | _, NegInf => NegInf
  end.

Definition jsub (a b : jsnum) : jsnum := jadd a (jneg b).

(** The sign of a number: [Lt], [Eq], [Gt] against zero; [None] for [NaN]. *)
Definition jsign (a : jsnum) : option comparison :=
  match a with
  | Fin q => Some (q ?= 0)
  | PosInf => Some Gt
  | NegInf => Some Lt
  | NaN => None
  end.

Definition signedInf (s : comparison) : jsnum :=
  match s with
  | Gt => PosInf
  | Lt => NegInf
  | Eq => NaN
  end.

Definition mulSign (s t : comparison) : comparison :=
  match s, t with
  | Eq, _ | _, Eq => Eq
  | Gt, Gt | Lt, Lt => Gt
  | _, _ => Lt
  end.

Definition jmul (a b : jsnum) : jsnum :=
  match a, b with
  | Fin x, Fin y => Fin (x * y)
  | _, _ =>
      match jsign a, jsign b with
      | Some s, Some t => signedInf (mulSign s t)
      | _, _ => NaN
      end
  end.

(** [a / b]: [0 / 0] is [NaN], [x / 0] is an infinity of the sign of [x]. *)
Definition jdiv (a b : jsnum) : jsnum :=
  match a, b with
  | NaN, _ | _, NaN => NaN
  | Fin x, Fin y => if Qeq_bool y 0 then signedInf (x ?= 0) else Fin (x / y)
  | Fin _, _ => Fin 0
  | _, Fin y =>
      match jsign a with
      | Some s => signedInf (mulSign s (if Qle_bool 0 y then Gt else Lt))
      | None => NaN
      end
  | _, _ => NaN
  end.

(** [a <= b]; false when either side is [NaN]. *)
Definition jleb (a b : jsnum) : bool :=
  match a, b with
  | NaN, _ | _, NaN => false
  | NegInf, _ | _, PosInf => true
  | Fin x, Fin y => Qle_bool x y
  | _, _ => false
  end.

(** [a < b]; false when either side is [NaN]. *)
Definition jltb (a b : jsnum) : bool :=
  match a, b with
  | NaN, _ | _, NaN => false
  | _, _ => negb (jleb b a)
  end.

(** [Math.max(a, b)] and [Math.min(a, b)]: [NaN] if either is. *)
Definition jmax (a b : jsnum) : jsnum :=
  match a, b with
  | NaN, _ | _, NaN => NaN
  | _, _ => if jleb a b then b else a
  end.

Definition jmin (a b : jsnum) : jsnum :=
  match a, b with
  | NaN, _ | _, NaN => NaN
  | _, _ => if jleb a b then a else b
  end.

(** [Math.min(...xs)] and [Math.max(...xs)]; of no argument they are
    [Infinity] and [-Infinity]. *)
Definition jminList (xs : list Q) : jsnum :=
  fold_left (fun m x => jmin m (Fin x)) xs PosInf.

Definition jmaxList (xs : list Q) : jsnum :=
  fold_left (fun m x => jmax m (Fin x)) xs NegInf.

(** [a || b] on numbers: [0] and [NaN] are falsy. *)
Definition jor (a b : jsnum) : jsnum :=
  match a with
  | NaN => b
  | Fin q => if Qeq_bool q 0 then b else a
  | _ => a
  end.

(* ================================================================== *)
(** * Regression trend line ([calculateTrendLine], [createScatterplotData]) *)

Record TrendLine : Type := mkTrend {
  points : list (jsnum * jsnum);
  slope : jsnum;
  intercept : jsnum
}.

Definition sumOf (f : Q * Q -> Q) (data : list (Q * Q)) : Q :=
  fold_left (fun sum point => sum + f point) data 0.

Definition calculateTrendLine (data : list (Q * Q)) : TrendLine :=
  if (length data <? 2)%nat then mkTrend [] (Fin 0) (Fin 0)
  else
    let n := Fin (inject_Z (Z.of_nat (length data))) in
    let sumX := Fin (sumOf fst data) in
    let sumY := Fin (sumOf snd data) in
    let sumXY := Fin (sumOf (fun p => fst p * snd p) data) in
    let sumXX := Fin (sumOf (fun p => fst p * fst p) data) in
    let slope :=
      jdiv (jsub (jmul n sumXY) (jmul sumX sumY))
           (jsub (jmul n sumXX) (jmul sumX sumX)) in
    let intercept := jdiv (jsub sumY (jmul slope sumX)) n in
    let xs := map fst data in
    let minX := jminList xs in
    let maxX := jmaxList xs in
    let range := jor (jsub maxX minX) (Fin 1) in
    let pad := jmul range (Fin (1 # 10)) in
    let extMin := jmax (Fin 0) (jsub minX pad) in
    let extMax := jadd maxX pad in
    mkTrend
      [ (extMin, jmax (Fin 0) (jadd (jmul slope extMin) intercept));
        (extMax, jmax (Fin 0) (jadd (jmul slope extMax) intercept)) ]
      slope intercept.

Record ScatterData : Type := mkScatter {
  sc_points : list (Q * Q);                    (* dataset 0 *)
  sc_trendLine : option (list (jsnum * jsnum)); (* dataset 1, when pushed *)
  sc_trend : jsnum * jsnum                      (* slope, intercept *)
}.

Definition scatterOf (processedIssues : list ProcessedIssue) : ScatterData :=
  let scatterData :=
    map (fun issue => (storyPoints issue, timeSpentHours issue))
        (filter (fun issue =>
                   Qgt0 (storyPoints issue) && Qgt0 (timeSpentHours issue))
                processedIssues) in
  let trendCalc := calculateTrendLine scatterData in
  let trendLineData := points trendCalc in
  mkScatter scatterData
            (if (0 <? length trendLineData)%nat then Some trendLineData
             else None)
            (slope trendCalc, intercept trendCalc).

Definition createScatterplotData (now cutoffDate : JSDate)
    (issues : list JiraIssue) (timeFilter : string) : ScatterData :=
  scatterOf (processIssuesForCharts now cutoffDate issues timeFilter).

(* ================================================================== *)
(** * Histogram ([createHistogramData]) *)

Record Bucket : Type := mkBucket {
  b_label : string;
  b_min : jsnum;
  b_max : jsnum
}.

Definition buckets : list Bucket :=
  [ mkBucket "0-5h" (Fin 0) (Fin 5);
    mkBucket "5-10h" (Fin 5) (Fin 10);
    mkBucket "10-20h" (Fin 10) (Fin 20);
    mkBucket "20-40h" (Fin 20) (Fin 40);
    mkBucket "40+h" (Fin 40) PosInf ].

(** [issue.timeSpentHours >= bucket.min && issue.timeSpentHours < bucket.max] *)
Definition inBucket (bucket : Bucket) (issue : ProcessedIssue) : bool :=
  jleb (b_min bucket) (Fin (timeSpentHours issue))
  && jltb (Fin (timeSpentHours issue)) (b_max bucket).

Definition bucketCounts (l : list ProcessedIssue) : list nat :=
  map (fun bucket => length (filter (inBucket bucket) l)) buckets.

(** The label of a series: a story-point value, or "No Story Points". *)
Inductive SeriesLabel : Type :=
| SP (storyPoint : Q)
| NoStoryPoints.

Record Series : Type := mkSeries {
  s_label : SeriesLabel;
  s_data : list nat
}.

(** [[...new Set(xs)]]: the distinct values, in order of first occurrence. *)
Fixpoint memNum (x : Q) (l : list Q) : bool :=
  match l with
  | [] => false
  | y :: l' => Qeq_bool y x || memNum x l'
  end.

Definition uniqueNums (xs : list Q) : list Q :=
  fold_left (fun seen x => if memNum x seen then seen else seen ++ [x]) xs [].

Definition histogramOf (processedIssues : list ProcessedIssue)
  : list Series :=
  let issuesWithBothFields :=
    filter (fun issue =>
              Qgt0 (timeSpentHours issue) && Qgt0 (storyPoints issue))
           processedIssues in
  let uniqueStoryPoints :=
    sortNum (uniqueNums (map storyPoints issuesWithBothFields)) in
  let datasets :=
    map (fun storyPoint =>
           let issuesWithThisSP :=
             filter (fun issue => Qeq_bool (storyPoints issue) storyPoint)
                    issuesWithBothFields in
           mkSeries (SP storyPoint) (bucketCounts issuesWithThisSP))
        uniqueStoryPoints in
  let issuesWithoutSP :=
    filter (fun issue =>
              Qgt0 (timeSpentHours issue) && Qeq_bool (storyPoints issue) 0)
           processedIssues in
  let datasets' :=
    if (0 <? length issuesWithoutSP)%nat
    then datasets ++ [mkSeries NoStoryPoints (bucketCounts issuesWithoutSP)]
    else datasets in
  filter (fun dataset => existsb (fun count => (0 <? count)%nat)
                                 (s_data dataset))
         datasets'.

Definition createHistogramData (now cutoffDate : JSDate)
    (issues : list JiraIssue) (timeFilter : string) : list Series :=
  histogramOf (processIssuesForCharts now cutoffDate issues timeFilter).


(* ================================================================== *)
(** * Performance-deviation score *)

Inductive Classification : Type :=
| OnTarget
| ModerateDeviation
| HighDeviation
| Undefined.

(** An estimate group: its estimate value and the hours of its records. *)
Definition EstimateGroup : Type := (Q * list Q)%type.

Definition sumQ (l : list Q) : Q := fold_right Qplus 0 l.

(** Modelled from the spec: the source files hold no code for the
    performance-deviation score (section 4.3 (e) of the specification); the
    definitions from here to [classify] follow its sentences.  Total hours
    and total estimate points run over the records of all groups, each
    record counting its group's estimate value once. *)
Definition totalHoursAcrossAllGroups (groups : list EstimateGroup) : Q :=
  sumQ (map (fun g => sumQ (snd g)) groups).

Definition totalEstimatePointsAcrossAllGroups (groups : list EstimateGroup)
  : Q :=
  sumQ (map (fun g => fst g * inject_Z (Z.of_nat (length (snd g)))) groups).

Definition expectedHoursPerPoint (groups : list EstimateGroup) : Q :=
  totalHoursAcrossAllGroups groups / totalEstimatePointsAcrossAllGroups groups.

Definition groupMean (g : EstimateGroup) : Q :=
  sumQ (snd g) / inject_Z (Z.of_nat (length (snd g))).

(** Expected hours of a group: [estimateValue * expectedHoursPerPoint]. *)
Definition expectedHours (groups : list EstimateGroup) (g : EstimateGroup)
  : Q :=
  fst g * expectedHoursPerPoint groups.

Definition percentDiff (groups : list EstimateGroup) (g : EstimateGroup) : Q :=
  Qabs (groupMean g - expectedHours groups g) / expectedHours groups g.

Definition classify (groups : list EstimateGroup) (g : EstimateGroup)
  : Classification :=
  if Qeq_bool (expectedHours groups g) 0 then Undefined
  else if Qlt_bool (percentDiff groups g) (15 # 100) then OnTarget
  else if Qlt_bool (percentDiff groups g) (30 # 100) then ModerateDeviation
  else HighDeviation.

(** The three chart builders, as [renderRealChart] runs them; each builder
    calls [processIssuesForCharts] itself and so takes clock readings of
    its own. *)
Record Charts : Type := mkCharts {
  ch_boxplot : option BoxplotData;
  ch_scatter : ScatterData;
  ch_histogram : list Series
}.

Definition recompute (r1 r2 r3 : JSDate * JSDate)
    (issues : list JiraIssue) (timeFilter : string) : Charts :=
  mkCharts (createBoxplotData (fst r1) (snd r1) issues timeFilter)
           (createScatterplotData (fst r2) (snd r2) issues timeFilter)
           (createHistogramData (fst r3) (snd r3) issues timeFilter).

(* ================================================================== *)
(** * Notions used in the statements *)

(** The ordering of the boxplot values of a group between its least and
    greatest hours [lo] and [hi]. *)
Record chain (group : list Q) (st : BoxplotStat) (lo hi : Q) : Prop := {
  chain_lo_in : In lo group;
  chain_hi_in : In hi group;
  chain_range : forall h, In h group -> lo <= h <= hi;
  chain_lower : lowerWhisker st = Qmax lo (q1 st - (3 # 2) * (q3 st - q1 st));
  chain_upper : upperWhisker st = Qmin hi (q3 st + (3 # 2) * (q3 st - q1 st));
  chain_1 : lo <= lowerWhisker st;
  chain_2 : lowerWhisker st <= q1 st;
  chain_3 : q1 st <= median st;
  chain_4 : median st <= q3 st;
  chain_5 : q3 st <= upperWhisker st;
  chain_6 : upperWhisker st <= hi
}.

(** The hours of the records of estimate [sp] that have both fields
    positive, in the order of the records. *)
Definition hoursOf (sp : Q) (l : list ProcessedIssue) : list Q :=
  map timeSpentHours
      (filter (fun issue =>
                 Qgt0 (storyPoints issue) && Qgt0 (timeSpentHours issue)
                 && Qeq_bool (storyPoints issue) sp) l).

(** The hours of a group, none for an absent key. *)
Definition groupOr (g : option (list Q)) : list Q :=
  match g with
  | Some v => v
  | None => []
  end.

(** Two numbers are the same number. *)
Definition jeq (a b : jsnum) : Prop :=
  match a, b with
  | Fin x, Fin y => x == y
  | PosInf, PosInf | NegInf, NegInf | NaN, NaN => True
  | _, _ => False
  end.

Definition samePoint (p q : jsnum * jsnum) : Prop :=
  jeq (fst p) (fst q) /\ jeq (snd p) (snd q).

(** The end points of the trend line in the words of the specification:
    the least and greatest observed estimate moved outwards by 10% of the
    observed range, the left one not below zero, each with the value of the
    fitted line [slope * x + intercept]. *)
Definition specTrendPoints (data : list (Q * Q)) : list (jsnum * jsnum) :=
  let fitted := calculateTrendLine data in
  let xs := map fst data in
  let minX := jminList xs in
  let maxX := jmaxList xs in
  let range := jsub maxX minX in
  let extMin := jmax (Fin 0) (jsub minX (jmul range (Fin (1 # 10)))) in
  let extMax := jadd maxX (jmul range (Fin (1 # 10))) in
  [ (extMin, jadd (jmul (slope fitted) extMin) (intercept fitted));
    (extMax, jadd (jmul (slope fitted) extMax) (intercept fitted)) ].

(** The denominator [n * sumXX - sumX * sumX] of the slope. *)
Definition xVariance (data : list (Q * Q)) : Q :=
  inject_Z (Z.of_nat (length data)) * sumOf (fun p => fst p * fst p) data
  - sumOf fst data * sumOf fst data.

(** The time windows, from the narrowest to the widest. *)
Definition windowRank (timeFilter : string) : option nat :=
  if String.eqb timeFilter "1h" then Some 0%nat
  else if String.eqb timeFilter "1d" then Some 1%nat
  else if String.eqb timeFilter "1w" then Some 2%nat
  else if String.eqb timeFilter "1m" then Some 3%nat
  else if String.eqb timeFilter "3m" then Some 4%nat
  else if String.eqb timeFilter "all" then Some 5%nat
  else None.

(** Two runs compute the same cut-off instant from their clock readings
    (or none, for a window without cut-off). *)
Definition sameCutoff (r r' : JSDate * JSDate) (timeFilter : string) : Prop :=
  option_map valueOf (cutoffOf (fst r) (snd r) timeFilter)
  = option_map valueOf (cutoffOf (fst r') (snd r') timeFilter).

(** Sample data: an issue with one story-point field and a direct
    [timespent], updated at the instant [d]. *)
Definition sampleIssue (k : string) (d : JSDate) (sp seconds : Q) : JiraIssue :=
  mkIssue k "sample issue" (Some (valueOf d)) (Some sp) None None None None
          (Some seconds) None None [].

Definition march31_0930 : JSDate := mkDate 2024 2 31 9 30 0 0.
Definition march31_1000 : JSDate := mkDate 2024 2 31 10 0 0 0.
Definition march31_1200 : JSDate := mkDate 2024 2 31 12 0 0 0.
Definition feb15 : JSDate := mkDate 2024 1 15 0 0 0 0.

(** The number an optional number holds, zero when it is absent. *)
Definition optNum (v : option Q) : Q :=
  match v with
  | Some q => q
  | None => 0
  end.

(** Effort extraction in the words of the specification: the seconds of
    the three sources in their fixed order, (a) the direct total, (b) the
    time-tracking summary, (c) the sum over the work-log entries; the first
    positive one is taken, alone, and divided by 3600. *)
Definition effortSources (issue : JiraIssue) : list Q :=
  [ optNum (timespent issue);
    optNum (trackedSeconds issue);
    sumSeconds (groupOr (worklogEntries issue)) ].

Fixpoint firstPositive (sources : list Q) : Q :=
  match sources with
  | [] => 0
  | s :: rest => if Qgt0 s then s else firstPositive rest
  end.

Definition specTimeSpentHours (issue : JiraIssue) : Q :=
  firstPositive (effortSources issue) / 3600.

(** Logged durations are not negative. *)
Definition nonNegativeSeconds (issue : JiraIssue) : Prop :=
  0 <= optNum (timespent issue) /\
  0 <= optNum (trackedSeconds issue) /\
  Forall (fun s => 0 <= s) (groupOr (worklogEntries issue)).

(** Sample data: an issue whose direct total is zero, with 7200 seconds
    in the time-tracking summary and two work-log entries. *)
Definition issueThreeSources : JiraIssue :=
  mkIssue "A-7" "three sources" None (Some 2) None None None None
          (Some 0) (Some (mkTimeTracking (Some 7200)))
          (Some (mkWorklog (Some [1800; 1800]))) [].

(** The seconds of a list of work-log entries, added up entry by entry. *)
Fixpoint totalSeconds (entries : list Q) : Q :=
  match entries with
  | [] => 0
  | s :: rest => s + totalSeconds rest
  end.

(** The seconds the three sources hold, in their fixed order: (a) the
    direct total, (b) the time-tracking summary, (c) the work-log entries
    added up; an absent source holds nothing. *)
Definition effortSeconds (issue : JiraIssue) : list Q :=
  [ optNum (timespent issue);
    optNum (trackedSeconds issue);
    totalSeconds (groupOr (worklogEntries issue)) ].

(** The first number of a list that is not zero, and zero when there is
    none. *)
Fixpoint firstTruthy (sources : list Q) : Q :=
  match sources with
  | [] => 0
  | s :: rest => if Qeq_bool s 0 then firstTruthy rest else s
  end.

(** Sample data: an issue whose direct total is a negative number of
    seconds, with 7200 seconds in the time-tracking summary. *)
Definition issueNegativeTotal : JiraIssue :=
  mkIssue "A-8" "negative total" None (Some 2) None None None None
          (Some (-3600)) (Some (mkTimeTracking (Some 7200))) None [].

(** Sample data: an issue without direct total, with a time-tracking
    summary of zero seconds and two work-log entries of 1800 and 5400
    seconds. *)
Definition issueWorklogOnly : JiraIssue :=
  mkIssue "A-9" "work log only" None (Some 2) None None None None
          None (Some (mkTimeTracking (Some 0)))
          (Some (mkWorklog (Some [1800; 5400]))) [].

(** No story-point field of the issue holds a negative number. *)
Definition nonNegativeEstimates (issue : JiraIssue) : Prop :=
  0 <= optNum (customfield_10016 issue) /\
  0 <= optNum (customfield_10004 issue) /\
  0 <= optNum (customfield_10002 issue) /\
  0 <= optNum (customfield_10003 issue) /\
  0 <= optNum (customfield_10005 issue).

(** The number of values of [l] equal to [x]. *)
Definition cnt (x : Q) (l : list Q) : nat :=
  length (filter (fun u => Qeq_bool x u) l).


(** Sample data: the records of the specification's scenario (three of
    estimate 1 with 2, 3 and 4 hours, one of estimate 3 with 9 hours) and
    one record with 6 hours and no estimate. *)
Definition scenarioIssues : list JiraIssue :=
  [ sampleIssue "S-1" feb15 1 7200;
    sampleIssue "S-2" feb15 1 10800;
    sampleIssue "S-3" feb15 1 14400;
    sampleIssue "S-4" feb15 3 32400;
    sampleIssue "S-5" feb15 0 21600 ].


(* ================================================================== *)
(** * Further notions: the calendar, the chart frames, the project search *)



(** A processed record has both fields positive. *)
Definition hasBoth (issue : ProcessedIssue) : bool :=
  Qgt0 (storyPoints issue) && Qgt0 (timeSpentHours issue).

(** The estimates of the per-estimate series of a histogram, in order. *)
Definition seriesEstimates (datasets : list Series) : list Q :=
  flat_map (fun dataset =>
              match s_label dataset with
              | SP u => [u]
              | NoStoryPoints => []
              end) datasets.

(** The totals of the per-estimate series of a histogram, in order. *)
Definition seriesTotals (datasets : list Series) : list nat :=
  flat_map (fun dataset =>
              match s_label dataset with
              | SP _ => [list_sum (s_data dataset)]
              | NoStoryPoints => []
              end) datasets.

(** The x-axis option [suggestedMax] of the scatter chart:
    [Math.max(...(datasets[0]?.data?.map((d) => d.x) || [10])) + 1].
    Dataset 0 is always there, and an array is truthy also when it is
    empty, so the list [[10]] is only taken for an absent dataset. *)
Definition suggestedMax (sc : ScatterData) : jsnum :=
  let xs :=
    match option_map (map fst) (Some (sc_points sc)) with
    | Some xs => xs
    | None => [10]
    end in
  jadd (jmaxList xs) (Fin 1).

(** What [renderRealChart] puts on the page ([renderModalChart] takes the
    same decisions): the "No data available" placeholder, one of the three
    charts, or nothing for an unknown graph type.  The emptiness test and the
    chart builder each call [processIssuesForCharts], so each has clock
    readings of its own, [r0] and [r1]. *)
Inductive Rendered : Type :=
| NoDataPlaceholder
| BoxplotChart (chartData : option BoxplotData)
| ScatterChart (chartData : ScatterData) (xSuggestedMax : jsnum)
| HistogramChart (chartData : list Series)
| NothingRendered.

Definition renderRealChart (r0 r1 : JSDate * JSDate)
    (issues : list JiraIssue) (timeFilter graphType : string) : Rendered :=
  let processedIssues :=
    processIssuesForCharts (fst r0) (snd r0) issues timeFilter in
  if (length processedIssues =? 0)%nat then NoDataPlaceholder
  else if String.eqb graphType "boxplot" then
    BoxplotChart (createBoxplotData (fst r1) (snd r1) issues timeFilter)
  else if String.eqb graphType "scatterplot" then
    let scatterResult :=
      createScatterplotData (fst r1) (snd r1) issues timeFilter in
    ScatterChart scatterResult (suggestedMax scatterResult)
  else if String.eqb graphType "histogram" then
    HistogramChart (createHistogramData (fst r1) (snd r1) issues timeFilter)
  else NothingRendered.

(** [s.includes(sub)]: [sub] occurs in [s]. *)
Fixpoint includes (s sub : string) : bool :=
  String.prefix sub s
  || match s with
     | EmptyString => false
     | String _ rest => includes rest sub
     end.

Record JiraProject : Type := mkProject {
  project_id : string;
  project_key : string;
  project_name : string
}.

(** The project search.  [String.prototype.toLowerCase] is a parameter. *)
Section ProjectSearch.

Variable toLowerCase : string -> string.

Definition filteredProjects (projects : list JiraProject)
    (searchQuery : string) : list JiraProject :=
  filter (fun project =>
            includes (toLowerCase (project_name project))
                     (toLowerCase searchQuery)
            || includes (toLowerCase (project_key project))
                        (toLowerCase searchQuery))
         projects.

End ProjectSearch.

(** Lower case of the letters A to Z, an instance of [toLowerCase] on
    strings of ASCII characters. *)
Definition lowerAscii (c : Ascii.ascii) : Ascii.ascii :=
  let n := Ascii.nat_of_ascii c in
  if (65 <=? n)%nat && (n <=? 90)%nat then Ascii.ascii_of_nat (n + 32) else c.

Fixpoint lowerString (s : string) : string :=
  match s with
  | EmptyString => EmptyString
  | String c rest => String (lowerAscii c) (lowerString rest)
  end.

(** Sample data: issues with an estimate and no logged time. *)
Definition estimateOnlyIssues : list JiraIssue :=
  [ mkIssue "E-1" "estimate only" (Some (valueOf feb15)) (Some 3) None None
            None None None None None [];
    mkIssue "E-2" "estimate only" (Some (valueOf feb15)) (Some 5) None None
            None None (Some 0) None None [] ].

(* ================================================================== *)
(** * Comparisons *)

Lemma Qgt0_iff (x : Q) : Qgt0 x = true <-> 0 < x.
Proof.
  unfold Qgt0. rewrite negb_true_iff, <- not_true_iff_false, Qle_bool_iff.
  split; [apply Qnot_le_lt | apply Qlt_not_le].
Qed.

Lemma Qlt_bool_iff (x y : Q) : Qlt_bool x y = true <-> x < y.
Proof.
  unfold Qlt_bool. rewrite negb_true_iff, <- not_true_iff_false, Qle_bool_iff.
  split; [apply Qnot_le_lt | apply Qlt_not_le].
Qed.

Lemma Qlt_bool_false_iff (x y : Q) : Qlt_bool x y = false <-> y <= x.
Proof.
  unfold Qlt_bool. rewrite negb_false_iff. apply Qle_bool_iff.
Qed.

Lemma Qle_bool_false (x y : Q) : Qle_bool x y = false -> y <= x.
Proof.
  intros H. apply Qlt_le_weak, Qnot_le_lt.
  rewrite <- Qle_bool_iff, H. discriminate.
Qed.

(* ================================================================== *)
(** * The sort *)

Lemma insertNum_perm (x : Q) (l : list Q) : Permutation (x :: l) (insertNum x l).
Proof.
  induction l as [|y l IH]; simpl; [reflexivity|].
  destruct (Qle_bool x y); [reflexivity|].
  rewrite perm_swap. now apply perm_skip.
Qed.

Lemma sortNum_perm (l : list Q) : Permutation l (sortNum l).
Proof.
  induction l as [|x l IH]; simpl; [constructor|].
  rewrite <- insertNum_perm. now constructor.
Qed.

Lemma sortNum_length (l : list Q) : length (sortNum l) = length l.
Proof. symmetry. apply Permutation_length, sortNum_perm. Qed.

Lemma sortNum_In (l : list Q) (x : Q) : In x (sortNum l) <-> In x l.
Proof.
  split; apply Permutation_in; [symmetry|]; apply sortNum_perm.
Qed.

Lemma insertNum_sorted (x : Q) (l : list Q) :
  StronglySorted Qle l -> StronglySorted Qle (insertNum x l).
Proof.
  induction 1 as [|y l Hs IH Hall]; simpl.
  - repeat constructor.
  - destruct (Qle_bool x y) eqn:E.
    + apply Qle_bool_iff in E. constructor.
      * now constructor.
      * constructor; [exact E|].
        eapply Forall_impl; [|exact Hall].
        intros z Hz. eapply Qle_trans; eassumption.
    + apply Qle_bool_false in E. constructor; [exact IH|].
      apply (Permutation_Forall (insertNum_perm x l)).
      now constructor.
Qed.

Lemma sortNum_sorted (l : list Q) : StronglySorted Qle (sortNum l).
Proof.
  induction l as [|x l IH]; simpl; [constructor|].
  now apply insertNum_sorted.
Qed.

(** A sorted array is left as it is. *)
Lemma sortNum_of_sorted (l : list Q) : StronglySorted Qle l -> sortNum l = l.
Proof.
  induction 1 as [|x l Hs IH Hall]; simpl; [reflexivity|].
  rewrite IH. destruct l as [|y l]; [reflexivity|]. simpl.
  inversion Hall as [|? ? Hxy _]; subst.
  apply Qle_bool_iff in Hxy. now rewrite Hxy.
Qed.

(** In a sorted array the cells are ordered as their indices. *)
Lemma sorted_nth_le (l : list Q) :
  StronglySorted Qle l ->
  forall i j a b, (i <= j)%nat ->
    nth_error l i = Some a -> nth_error l j = Some b -> a <= b.
Proof.
  induction 1 as [|x l Hs IH Hall]; intros i j a b Hij Ha Hb.
  - destruct i; discriminate.
  - destruct i as [|i], j as [|j]; simpl in *.
    + injection Ha as <-. injection Hb as <-. apply Qle_refl.
    + injection Ha as <-. rewrite Forall_forall in Hall.
      apply Hall. eapply nth_error_In; eassumption.
    + lia.
    + eapply IH; [|eassumption|eassumption]. lia.
Qed.

(* ================================================================== *)
(** * Quartile indices *)

Lemma floor_mul_quarter (n : nat) : floor_mul n (1 # 4) = (Z.of_nat n / 4)%Z.
Proof.
  unfold floor_mul, Qmult, inject_Z, Qfloor; simpl Qnum; simpl Qden.
  now rewrite Z.mul_1_r.
Qed.

Lemma floor_mul_half (n : nat) : floor_mul n (1 # 2) = (Z.of_nat n / 2)%Z.
Proof.
  unfold floor_mul, Qmult, inject_Z, Qfloor; simpl Qnum; simpl Qden.
  now rewrite Z.mul_1_r.
Qed.

Lemma floor_mul_three_quarters (n : nat) :
  floor_mul n (3 # 4) = (Z.of_nat n * 3 / 4)%Z.
Proof.
  unfold floor_mul, Qmult, inject_Z, Qfloor; simpl Qnum; simpl Qden.
  reflexivity.
Qed.

Lemma quartile_index_bounds (n : nat) :
  (1 <= n)%nat ->
  (0 <= floor_mul n (1 # 4) <= floor_mul n (1 # 2))%Z /\
  (floor_mul n (1 # 2) <= floor_mul n (3 # 4))%Z /\
  (floor_mul n (3 # 4) < Z.of_nat n)%Z.
Proof.
  intros Hn.
  rewrite floor_mul_quarter, floor_mul_half, floor_mul_three_quarters.
  pose proof (Z.div_mod (Z.of_nat n) 4 ltac:(lia)).
  pose proof (Z.mod_pos_bound (Z.of_nat n) 4 ltac:(lia)).
  pose proof (Z.div_mod (Z.of_nat n) 2 ltac:(lia)).
  pose proof (Z.mod_pos_bound (Z.of_nat n) 2 ltac:(lia)).
  pose proof (Z.div_mod (Z.of_nat n * 3) 4 ltac:(lia)).
  pose proof (Z.mod_pos_bound (Z.of_nat n * 3) 4 ltac:(lia)).
  lia.
Qed.

Lemma js_index_some {A : Type} (a : list A) (i : Z) :
  (0 <= i < Z.of_nat (length a))%Z -> exists x, js_index a i = Some x.
Proof.
  intros [H0 Hlt]. unfold js_index.
  destruct (Z.ltb_spec i 0); [lia|].
  destruct (nth_error a (Z.to_nat i)) eqn:E; [eauto|].
  apply nth_error_None in E. lia.
Qed.

Lemma js_index_nth {A : Type} (a : list A) (i : Z) (x : A) :
  js_index a i = Some x -> (0 <= i)%Z /\ nth_error a (Z.to_nat i) = Some x.
Proof.
  unfold js_index. destruct (Z.ltb_spec i 0); [discriminate|]. auto.
Qed.

Lemma js_index_le (l : list Q) (i j : Z) (a b : Q) :
  StronglySorted Qle l -> (i <= j)%Z ->
  js_index l i = Some a -> js_index l j = Some b -> a <= b.
Proof.
  intros Hs Hij Ha Hb.
  apply js_index_nth in Ha as [Hi Ha]. apply js_index_nth in Hb as [Hj Hb].
  eapply (sorted_nth_le l Hs (Z.to_nat i) (Z.to_nat j)); eauto. lia.
Qed.

Lemma js_index_In {A : Type} (a : list A) (i : Z) (x : A) :
  js_index a i = Some x -> In x a.
Proof.
  intros H. apply js_index_nth in H as [_ H]. eapply nth_error_In; eauto.
Qed.

(** A read at an index that is a natural number is the cell of that
    number. *)
Lemma js_index_nat (l : list Q) (i : Z) (m : nat) (x : Q) :
  i = Z.of_nat m -> js_index l i = Some x -> x = nth m l 0.
Proof.
  intros -> H. apply js_index_nth in H as [_ H].
  rewrite Nat2Z.id in H. symmetry. now apply nth_error_nth.
Qed.

(** What [boxplotStat] returns, cell by cell. *)
Lemma boxplotStat_some (sp : Q) (group : list Q) :
  group <> [] ->
  exists a b c lo hi,
    let hours := sortNum group in
    let n := length hours in
    js_index hours (floor_mul n (1 # 4)) = Some a /\
    js_index hours (floor_mul n (1 # 2)) = Some b /\
    js_index hours (floor_mul n (3 # 4)) = Some c /\
    js_index hours 0 = Some lo /\
    js_index hours (Z.of_nat n - 1) = Some hi /\
    boxplotStat sp group =
      Some (mkBoxplotStat a b c
              (Qmax lo (a - (3 # 2) * (c - a)))
              (Qmin hi (c + (3 # 2) * (c - a)))
              (filter (fun h =>
                         Qlt_bool h (Qmax lo (a - (3 # 2) * (c - a)))
                         || Qlt_bool (Qmin hi (c + (3 # 2) * (c - a))) h)
                      hours)
              n sp).
Proof.
  intros Hne.
  assert (Hn : (1 <= length (sortNum group))%nat).
  { rewrite sortNum_length. destruct group; [congruence | simpl; lia]. }
  destruct (quartile_index_bounds _ Hn) as [[H0 H1] [H2 H3]].
  destruct (js_index_some (sortNum group) (floor_mul (length (sortNum group)) (1#4)))
    as [a Ha]; [lia|].
  destruct (js_index_some (sortNum group) (floor_mul (length (sortNum group)) (1#2)))
    as [b Hb]; [lia|].
  destruct (js_index_some (sortNum group) (floor_mul (length (sortNum group)) (3#4)))
    as [c Hc]; [lia|].
  destruct (js_index_some (sortNum group) 0) as [lo Hlo]; [lia|].
  destruct (js_index_some (sortNum group) (Z.of_nat (length (sortNum group)) - 1))
    as [hi Hhi]; [lia|].
  exists a, b, c, lo, hi. cbv zeta.
  repeat (split; [assumption|]).
  unfold boxplotStat. cbv zeta.
  rewrite Ha, Hb, Hc, Hlo, Hhi. reflexivity.
Qed.

(* ================================================================== *)
(** * The ordering of the boxplot values *)

Lemma whisker_arith (a c : Q) :
  a <= c -> a - (3 # 2) * (c - a) <= a /\ c <= c + (3 # 2) * (c - a).
Proof.
  intros H. split.
  - apply Qle_minus_iff. setoid_replace (a + - (a - (3 # 2) * (c - a)))
      with ((3 # 2) * (c - a)) by ring.
    apply Qmult_le_0_compat; [discriminate|].
    now apply -> Qle_minus_iff.
  - apply Qle_minus_iff. setoid_replace (c + (3 # 2) * (c - a) + - c)
      with ((3 # 2) * (c - a)) by ring.
    apply Qmult_le_0_compat; [discriminate|].
    now apply -> Qle_minus_iff.
Qed.

(** The extremes of a sorted array are its first and last cells. *)
Lemma sorted_extremes (l : list Q) (lo hi : Q) :
  StronglySorted Qle l ->
  js_index l 0 = Some lo ->
  js_index l (Z.of_nat (length l) - 1) = Some hi ->
  forall h, In h l -> lo <= h <= hi.
Proof.
  intros Hs Hlo Hhi h Hin.
  apply In_nth_error in Hin as [i Hi].
  assert (Hlt : (i < length l)%nat) by (apply nth_error_Some; congruence).
  assert (Hh : js_index l (Z.of_nat i) = Some h).
  { unfold js_index. destruct (Z.ltb_spec (Z.of_nat i) 0); [lia|].
    now rewrite Nat2Z.id. }
  split.
  - refine (js_index_le _ _ _ _ _ Hs _ Hlo Hh). lia.
  - refine (js_index_le _ _ _ _ _ Hs _ Hh Hhi). lia.
Qed.


Lemma boxplotStat_chain (sp : Q) (group : list Q) :
  group <> [] ->
  exists st lo hi, boxplotStat sp group = Some st /\ chain group st lo hi.
Proof.
  intros Hne.
  destruct (boxplotStat_some sp group Hne)
    as (a & b & c & lo & hi & Ha & Hb & Hc & Hlo & Hhi & Hst).
  cbv zeta in *.
  pose proof (sortNum_sorted group) as Hs.
  assert (Hn : (1 <= length (sortNum group))%nat).
  { rewrite sortNum_length. destruct group; [congruence | simpl; lia]. }
  destruct (quartile_index_bounds _ Hn) as [[H0 H1] [H2 H3]].
  assert (Hab : a <= b) by exact (js_index_le _ _ _ _ _ Hs H1 Ha Hb).
  assert (Hbc : b <= c) by exact (js_index_le _ _ _ _ _ Hs H2 Hb Hc).
  assert (Hloa : lo <= a) by exact (js_index_le _ _ _ _ _ Hs H0 Hlo Ha).
  assert (Hchi : c <= hi).
  { refine (js_index_le _ _ _ _ _ Hs _ Hc Hhi). lia. }
  assert (Hac : a <= c) by (eapply Qle_trans; eauto).
  destruct (whisker_arith a c Hac) as [Hw1 Hw2].
  eexists; exists lo, hi. split; [exact Hst|].
  constructor; simpl; try assumption; try reflexivity.
  - apply sortNum_In. eapply js_index_In; eauto.
  - apply sortNum_In. eapply js_index_In; eauto.
  - intros h Hh. apply (sorted_extremes (sortNum group) lo hi Hs Hlo Hhi).
    now apply sortNum_In.
  - apply Q.le_max_l.
  - apply Q.max_lub; assumption.
  - apply Q.min_glb; assumption.
  - apply Q.le_min_l.
Qed.

(* ================================================================== *)
(** * The groups of the boxplot *)

Lemma Qeq_bool_trans_l (a b c : Q) :
  Qeq_bool a b = true -> Qeq_bool a c = Qeq_bool b c.
Proof.
  intros H. apply Qeq_bool_iff in H.
  destruct (Qeq_bool b c) eqn:E.
  - apply Qeq_bool_iff in E. apply Qeq_bool_iff. now rewrite H.
  - apply not_true_iff_false. intros E'. apply Qeq_bool_iff in E'.
    apply not_true_iff_false in E. apply E. apply Qeq_bool_iff.
    now rewrite <- H.
Qed.

Lemma Qeq_bool_sym (a b : Q) : Qeq_bool a b = Qeq_bool b a.
Proof.
  destruct (Qeq_bool b a) eqn:E.
  - apply Qeq_bool_iff in E. apply Qeq_bool_iff. now symmetry.
  - apply not_true_iff_false. intros E'. apply Qeq_bool_iff in E'.
    apply not_true_iff_false in E. apply E. apply Qeq_bool_iff.
    now symmetry.
Qed.

Lemma lookupGroup_pushGroup (groups : list (Q * list Q)) (k h sp : Q) :
  lookupGroup (pushGroup groups k h) sp =
  if Qeq_bool k sp then Some (groupOr (lookupGroup groups sp) ++ [h])
  else lookupGroup groups sp.
Proof.
  induction groups as [|[k' v] rest IH]; simpl.
  - destruct (Qeq_bool k sp); reflexivity.
  - destruct (Qeq_bool k' k) eqn:Ek; simpl.
    + rewrite (Qeq_bool_trans_l k' k sp Ek).
      destruct (Qeq_bool k sp); reflexivity.
    + rewrite IH. destruct (Qeq_bool k sp) eqn:Es.
      * rewrite Qeq_bool_sym in Es.
        assert (Qeq_bool k' sp = false) as ->; [|reflexivity].
        rewrite Qeq_bool_sym, (Qeq_bool_trans_l sp k k' Es), Qeq_bool_sym.
        exact Ek.
      * reflexivity.
Qed.

Lemma pushGroup_nonempty (groups : list (Q * list Q)) (k h : Q) :
  Forall (fun g => snd g <> []) groups ->
  Forall (fun g => snd g <> []) (pushGroup groups k h).
Proof.
  induction 1 as [|[k' v] rest Hv Hrest IH]; simpl.
  - constructor; [discriminate | constructor].
  - destruct (Qeq_bool k' k).
    + constructor; [|assumption]. simpl. destruct v; discriminate.
    + constructor; assumption.
Qed.

Lemma fold_groupStep_nonempty (l : list ProcessedIssue) :
  forall acc, Forall (fun g => snd g <> []) acc ->
    Forall (fun g => snd g <> []) (fold_left groupStep l acc).
Proof.
  induction l as [|issue l IH]; intros acc Hacc; simpl; [assumption|].
  apply IH. unfold groupStep.
  destruct (Qgt0 (storyPoints issue) && Qgt0 (timeSpentHours issue));
    [now apply pushGroup_nonempty | assumption].
Qed.

Lemma lookupGroup_fold (l : list ProcessedIssue) (sp : Q) :
  forall acc,
    groupOr (lookupGroup (fold_left groupStep l acc) sp)
    = groupOr (lookupGroup acc sp) ++ hoursOf sp l.
Proof.
  induction l as [|issue l IH]; intros acc; simpl.
  - unfold hoursOf. simpl. now rewrite app_nil_r.
  - rewrite IH. unfold groupStep, hoursOf. simpl.
    destruct (Qgt0 (storyPoints issue) && Qgt0 (timeSpentHours issue)); simpl.
    + rewrite lookupGroup_pushGroup.
      destruct (Qeq_bool (storyPoints issue) sp); simpl.
      * now rewrite <- app_assoc.
      * reflexivity.
    + reflexivity.
Qed.

(** The group of an estimate value holds the hours of the records of that
    estimate with both fields positive. *)
Lemma lookupGroup_storyPointGroups (l : list ProcessedIssue) (sp : Q) (g : list Q) :
  lookupGroup (storyPointGroups l) sp = Some g -> g = hoursOf sp l /\ g <> [].
Proof.
  intros H. split.
  - pose proof (lookupGroup_fold l sp []) as E. unfold storyPointGroups in H.
    rewrite H in E. exact E.
  - pose proof (fold_groupStep_nonempty l [] (Forall_nil _)) as Hne.
    unfold storyPointGroups in H. revert H Hne.
    generalize (fold_left groupStep l []). intros groups.
    induction groups as [|[k v] rest IH]; simpl; [discriminate|].
    intros H Hne. inversion Hne as [|? ? Hv Hrest]; subst.
    destruct (Qeq_bool k sp).
    + injection H as <-. exact Hv.
    + now apply IH.
Qed.

Lemma lookupGroup_key (groups : list (Q * list Q)) (sp : Q) :
  In sp (map fst groups) -> exists g, lookupGroup groups sp = Some g.
Proof.
  induction groups as [|[k v] rest IH]; simpl; [tauto|].
  intros [->|Hin].
  - assert (Qeq_bool sp sp = true) as -> by (apply Qeq_bool_iff; reflexivity).
    eauto.
  - destruct (Qeq_bool k sp); eauto.
Qed.

Lemma mapM_some {A B : Type} (f : A -> option B) (P : B -> Prop) (l : list A) :
  (forall x, In x l -> exists y, f x = Some y /\ P y) ->
  exists ys, mapM f l = Some ys /\ Forall P ys.
Proof.
  induction l as [|x l IH]; intros H; simpl.
  - exists []. split; [reflexivity | constructor].
  - destruct (H x (or_introl eq_refl)) as (y & Hy & Py).
    destruct IH as (ys & Hys & Pys); [intros; apply H; now right|].
    exists (y :: ys). rewrite Hy, Hys. simpl. split; [reflexivity|].
    now constructor.
Qed.

(** Every statistic of the boxplot is that of a non-empty group, and the
    four datasets hold the segments of the statistics. *)
Lemma boxplotOfGroups_defined (l : list ProcessedIssue) :
  exists d, boxplotOfGroups (storyPointGroups l) = Some d /\
    Forall (fun st =>
              hoursOf (label st) l <> [] /\
              boxplotStat (label st) (hoursOf (label st) l) = Some st)
           (boxplotStats d) /\
    bp_datasets d
    = [ map (fun stat => q1 stat - lowerWhisker stat) (boxplotStats d);
        map (fun stat => median stat - q1 stat) (boxplotStats d);
        map (fun stat => q3 stat - median stat) (boxplotStats d);
        map (fun stat => upperWhisker stat - q3 stat) (boxplotStats d) ].
Proof.
  unfold boxplotOfGroups.
  destruct (mapM_some
              (fun sp => hours <- lookupGroup (storyPointGroups l) sp ;;
                         boxplotStat sp hours)
              (fun st => hoursOf (label st) l <> [] /\
                         boxplotStat (label st) (hoursOf (label st) l) = Some st)
              (sortNum (map fst (storyPointGroups l))))
    as (stats & Hstats & Hall).
  - intros sp Hin. apply (proj1 (sortNum_In _ _)) in Hin.
    destruct (lookupGroup_key _ _ Hin) as [g Hg].
    destruct (lookupGroup_storyPointGroups l sp g Hg) as [-> Hne].
    destruct (boxplotStat_some sp (hoursOf sp l) Hne)
      as (a & b & c & lo & hi & _ & _ & _ & _ & _ & Hst).
    eexists. rewrite Hg. simpl. split; [exact Hst|].
    simpl. split; [exact Hne | exact Hst].
  - rewrite Hstats. simpl. eexists. split; [reflexivity|].
    split; [exact Hall | reflexivity].
Qed.

Lemma nonempty_cons {A : Type} (x : A) (l : list A) : x :: l <> [].
Proof. discriminate. Qed.

(* ================================================================== *)
(** * Boxplot: the claims *)

(** C1.  For a non-empty group, with [hours] its values sorted ascending
    and [n] their number, the statistics are cells of the sorted array at
    the integer indices [n / 4], [n / 2] and [3 n / 4] (integer division,
    which is what [Math.floor(n * 0.25)], [Math.floor(n * 0.5)] and
    [Math.floor(n * 0.75)] come to): [q1 = hours[n / 4]],
    [median = hours[n / 2]] and [q3 = hours[3 n / 4]], one cell each, no
    interpolation between cells; for a single value [x] all three are [x],
    the inter-quartile range is zero and there is no outlier. *)
Theorem C1_quartiles_nearest_rank (sp : Q) (group : list Q) :
  group <> [] ->
  exists st,
    boxplotStat sp group = Some st /\
    let hours := sortNum group in
    let n := length hours in
    StronglySorted Qle hours /\ Permutation group hours /\
    n = length group /\
    js_index hours (Z.of_nat n / 4)%Z = Some (q1 st) /\
    js_index hours (Z.of_nat n / 2)%Z = Some (median st) /\
    js_index hours (Z.of_nat n * 3 / 4)%Z = Some (q3 st) /\
    q1 st = nth (n / 4)%nat hours 0 /\
    median st = nth (n / 2)%nat hours 0 /\
    q3 st = nth (n * 3 / 4)%nat hours 0 /\
    count st = n /\
    (forall x, group = [x] ->
       q1 st = x /\ median st = x /\ q3 st = x /\
       q3 st - q1 st == 0 /\ outliers st = []).
Proof.
  intros Hne.
  destruct (boxplotStat_some sp group Hne)
    as (a & b & c & lo & hi & Ha & Hb & Hc & Hlo & Hhi & Hst).
  destruct (boxplotStat_chain sp group Hne) as (st & lo' & hi' & Hst' & Hch).
  cbv zeta in *. exists st. split; [exact Hst'|].
  rewrite Hst in Hst'. injection Hst' as <-. simpl in *.
  split; [apply sortNum_sorted|]. split; [apply sortNum_perm|].
  split; [apply sortNum_length|].
  pose proof Ha as Ha'. pose proof Hb as Hb'. pose proof Hc as Hc'.
  rewrite floor_mul_quarter in Ha'. rewrite floor_mul_half in Hb'.
  rewrite floor_mul_three_quarters in Hc'.
  split; [exact Ha'|]. split; [exact Hb'|]. split; [exact Hc'|].
  split; [refine (js_index_nat _ _ (length (sortNum group) / 4) _ _ Ha');
          now rewrite Nat2Z.inj_div|].
  split; [refine (js_index_nat _ _ (length (sortNum group) / 2) _ _ Hb');
          now rewrite Nat2Z.inj_div|].
  split; [refine (js_index_nat _ _ (length (sortNum group) * 3 / 4) _ _ Hc');
          now rewrite Nat2Z.inj_div, Nat2Z.inj_mul|].
  split; [reflexivity|].
  intros x ->. simpl in Ha, Hb, Hc.
  change (floor_mul 1 (1 # 4)) with 0%Z in Ha.
  change (floor_mul 1 (1 # 2)) with 0%Z in Hb.
  change (floor_mul 1 (3 # 4)) with 0%Z in Hc.
  cbn in Ha, Hb, Hc. injection Ha as <-. injection Hb as <-. injection Hc as <-.
  repeat (split; [reflexivity|]). split; [ring|].
  simpl.
  assert (E1 : Qlt_bool x (Qmax lo (x - (3 # 2) * (x - x))) = false).
  { apply Qlt_bool_false_iff. exact (chain_2 _ _ _ _ Hch). }
  assert (E2 : Qlt_bool (Qmin hi (x + (3 # 2) * (x - x))) x = false).
  { apply Qlt_bool_false_iff. exact (chain_5 _ _ _ _ Hch). }
  now rewrite E1, E2.
Qed.

Lemma C1_quartiles_nearest_rank_witness :
  [7; 1; 5; 3; 9] <> [] /\
  exists st,
    boxplotStat 2 [7; 1; 5; 3; 9] = Some st /\
    sortNum [7; 1; 5; 3; 9] = [1; 3; 5; 7; 9] /\
    q1 st = 3 /\ median st = 5 /\ q3 st = 7 /\ count st = 5%nat.
Proof.
  split; [discriminate|].
  destruct (C1_quartiles_nearest_rank 2 [7; 1; 5; 3; 9])
    as (st & Hst & _ & _ & _ & _ & _ & _ & H1 & H2 & H3 & Hn & _);
    [discriminate|].
  exists st. split; [exact Hst|]. split; [reflexivity|].
  split; [exact H1|]. split; [exact H2|]. split; [exact H3 | exact Hn].
Defined.

(** C10.  For a group of [n >= 1] values the indices [floor(n * 0.25)],
    [floor(n * 0.5)] and [floor(n * 0.75)] lie in [0, n), so the three reads
    of the sorted array are in bounds and [q1], [median] and [q3] are
    defined values. *)
Theorem C10_quartile_indices_in_bounds (sp : Q) (group : list Q) :
  (1 <= length group)%nat ->
  let hours := sortNum group in
  let n := length hours in
  (0 <= floor_mul n (1 # 4) < Z.of_nat n)%Z /\
  (0 <= floor_mul n (1 # 2) < Z.of_nat n)%Z /\
  (0 <= floor_mul n (3 # 4) < Z.of_nat n)%Z /\
  exists st,
    boxplotStat sp group = Some st /\
    js_index hours (floor_mul n (1 # 4)) = Some (q1 st) /\
    js_index hours (floor_mul n (1 # 2)) = Some (median st) /\
    js_index hours (floor_mul n (3 # 4)) = Some (q3 st).
Proof.
  intros Hlen hours n.
  assert (Hne : group <> []) by (destruct group; [simpl in Hlen; lia | discriminate]).
  assert (Hn : (1 <= n)%nat) by (subst n hours; now rewrite sortNum_length).
  destruct (quartile_index_bounds n Hn) as [[H0 H1] [H2 H3]].
  repeat (split; [lia|]).
  destruct (boxplotStat_some sp group Hne)
    as (a & b & c & lo & hi & Ha & Hb & Hc & _ & _ & Hst).
  eexists. split; [exact Hst|]. simpl. auto.
Qed.

Lemma C10_quartile_indices_in_bounds_witness :
  (1 <= length [7; 1; 5; 3; 9])%nat /\
  (0 <= floor_mul 5 (3 # 4) < 5)%Z /\
  exists st, boxplotStat 2 [7; 1; 5; 3; 9] = Some st /\ q3 st = 7.
Proof.
  split; [simpl; lia|].
  destruct (C10_quartile_indices_in_bounds 2 [7; 1; 5; 3; 9])
    as (_ & _ & H3 & st & Hst & _); [simpl; lia|].
  split; [exact H3|].
  exists st. split; [exact Hst|].
  vm_compute in Hst. injection Hst as <-. reflexivity.
Defined.

(** C5.  For a non-empty group with least value [lo] and greatest value
    [hi], [lo <= lowerWhisker <= q1 <= median <= q3 <= upperWhisker <= hi],
    where [lowerWhisker = max(lo, q1 - 1.5 * IQR)] and
    [upperWhisker = min(hi, q3 + 1.5 * IQR)]; the whiskers stay within the
    observed range and the four stacked segments are non-negative. *)
Theorem C5_boxplot_ordering (sp : Q) (group : list Q) :
  group <> [] ->
  exists st lo hi,
    boxplotStat sp group = Some st /\
    In lo group /\ In hi group /\
    (forall h, In h group -> lo <= h <= hi) /\
    lowerWhisker st = Qmax lo (q1 st - (3 # 2) * (q3 st - q1 st)) /\
    upperWhisker st = Qmin hi (q3 st + (3 # 2) * (q3 st - q1 st)) /\
    lo <= lowerWhisker st /\ lowerWhisker st <= q1 st /\
    q1 st <= median st /\ median st <= q3 st /\
    q3 st <= upperWhisker st /\ upperWhisker st <= hi /\
    Forall (fun s => 0 <= s) (segments st).
Proof.
  intros Hne.
  destruct (boxplotStat_chain sp group Hne) as (st & lo & hi & Hst & Hch).
  exists st, lo, hi. destruct Hch.
  repeat (split; [assumption|]).
  unfold segments.
  repeat constructor; now apply -> Qle_minus_iff.
Qed.

Lemma C5_boxplot_ordering_witness :
  [4; 2; 3] <> [] /\
  exists st lo hi,
    boxplotStat 1 [4; 2; 3] = Some st /\
    In lo [4; 2; 3] /\ In hi [4; 2; 3] /\
    lo <= lowerWhisker st /\ upperWhisker st <= hi /\
    Forall (fun s => 0 <= s) (segments st).
Proof.
  split; [discriminate|].
  destruct (C5_boxplot_ordering 1 [4; 2; 3] (nonempty_cons _ _))
    as (st & lo & hi & H).
  exists st, lo, hi. tauto.
Defined.

(* ================================================================== *)
(** * Regression *)

Lemma jmax_Fin (a b : Q) : exists c, jmax (Fin a) (Fin b) = Fin c /\ c == Qmax a b.
Proof.
  unfold jmax, jleb. destruct (Qle_bool a b) eqn:E.
  - apply Qle_bool_iff in E. exists b. split; [reflexivity|].
    symmetry. now apply Q.max_r.
  - apply Qle_bool_false in E. exists a. split; [reflexivity|].
    symmetry. now apply Q.max_l.
Qed.

Lemma jmin_Fin_eq (a b : Q) :
  jmin (Fin a) (Fin b) = if Qle_bool a b then Fin a else Fin b.
Proof. reflexivity. Qed.

Lemma jmax_Fin_eq (a b : Q) :
  jmax (Fin a) (Fin b) = if Qle_bool a b then Fin b else Fin a.
Proof. reflexivity. Qed.

Lemma fold_jmin (xs : list Q) :
  forall a, exists mn,
    fold_left (fun m x => jmin m (Fin x)) xs (Fin a) = Fin mn /\
    (mn = a \/ In mn xs) /\ mn <= a /\ forall x, In x xs -> mn <= x.
Proof.
  induction xs as [|x xs IH]; intros a.
  - exists a. simpl. repeat split; auto using Qle_refl. intros ? [].
  - cbn [fold_left]. rewrite jmin_Fin_eq. destruct (Qle_bool a x) eqn:E.
    + apply Qle_bool_iff in E.
      destruct (IH a) as (mn & Hf & Hin & Hle & Hall).
      exists mn. split; [exact Hf|]. split; [simpl; tauto|]. split; [exact Hle|].
      intros y [<-|Hy]; [eapply Qle_trans; eauto | auto].
    + apply Qle_bool_false in E.
      destruct (IH x) as (mn & Hf & Hin & Hle & Hall).
      exists mn. split; [exact Hf|].
      split; [destruct Hin as [->|]; simpl; auto|].
      split; [eapply Qle_trans; eauto|].
      intros y [<-|Hy]; auto.
Qed.

Lemma fold_jmax (xs : list Q) :
  forall a, exists mx,
    fold_left (fun m x => jmax m (Fin x)) xs (Fin a) = Fin mx /\
    (mx = a \/ In mx xs) /\ a <= mx /\ forall x, In x xs -> x <= mx.
Proof.
  induction xs as [|x xs IH]; intros a.
  - exists a. simpl. repeat split; auto using Qle_refl. intros ? [].
  - cbn [fold_left]. rewrite jmax_Fin_eq. destruct (Qle_bool a x) eqn:E.
    + apply Qle_bool_iff in E.
      destruct (IH x) as (mx & Hf & Hin & Hle & Hall).
      exists mx. split; [exact Hf|].
      split; [destruct Hin as [->|]; simpl; auto|].
      split; [eapply Qle_trans; eauto|].
      intros y [<-|Hy]; auto.
    + apply Qle_bool_false in E.
      destruct (IH a) as (mx & Hf & Hin & Hle & Hall).
      exists mx. split; [exact Hf|]. split; [simpl; tauto|]. split; [exact Hle|].
      intros y [<-|Hy]; [eapply Qle_trans; eauto | auto].
Qed.

Lemma jminList_spec (xs : list Q) :
  xs <> [] ->
  exists mn, jminList xs = Fin mn /\ In mn xs /\ forall x, In x xs -> mn <= x.
Proof.
  destruct xs as [|x xs]; [congruence|]. intros _.
  unfold jminList. simpl.
  destruct (fold_jmin xs x) as (mn & Hf & Hin & Hle & Hall).
  exists mn. split; [exact Hf|]. split; [destruct Hin as [->|]; auto|].
  intros y [<-|Hy]; auto.
Qed.

Lemma jmaxList_spec (xs : list Q) :
  xs <> [] ->
  exists mx, jmaxList xs = Fin mx /\ In mx xs /\ forall x, In x xs -> x <= mx.
Proof.
  destruct xs as [|x xs]; [congruence|]. intros _.
  unfold jmaxList. simpl.
  destruct (fold_jmax xs x) as (mx & Hf & Hin & Hle & Hall).
  exists mx. split; [exact Hf|]. split; [destruct Hin as [->|]; auto|].
  intros y [<-|Hy]; auto.
Qed.

Lemma fold_sum_shift (f : Q * Q -> Q) (data : list (Q * Q)) :
  forall a, fold_left (fun sum point => sum + f point) data a
            == a + sumOf f data.
Proof.
  unfold sumOf. induction data as [|p data IH]; intros a; simpl.
  - ring.
  - rewrite (IH (a + f p)), (IH (0 + f p)). ring.
Qed.

Lemma sumOf_cons (f : Q * Q -> Q) (p : Q * Q) (data : list (Q * Q)) :
  sumOf f (p :: data) == f p + sumOf f data.
Proof.
  unfold sumOf at 1. simpl. rewrite fold_sum_shift. ring.
Qed.

Lemma sumOf_constant (f : Q * Q -> Q) (v : Q) (data : list (Q * Q)) :
  (forall p, In p data -> f p == v) ->
  sumOf f data == inject_Z (Z.of_nat (length data)) * v.
Proof.
  induction data as [|p data IH]; intros Hv.
  - unfold sumOf. simpl. ring.
  - rewrite sumOf_cons, IH by (intros; apply Hv; now right).
    rewrite (Hv p (or_introl eq_refl)).
    change (length (p :: data)) with (S (length data)).
    rewrite Nat2Z.inj_succ. unfold Z.succ. rewrite inject_Z_plus. ring.
Qed.

(** When all estimates are equal the slope's denominator is zero. *)
Lemma xVariance_constant (c : Q) (data : list (Q * Q)) :
  (forall p, In p data -> fst p == c) -> xVariance data == 0.
Proof.
  intros Hc. unfold xVariance.
  rewrite (sumOf_constant fst c data Hc).
  rewrite (sumOf_constant (fun p => fst p * fst p) (c * c) data).
  - ring.
  - intros p Hp. now rewrite (Hc p Hp).
Qed.

Lemma jdiv_Fin (x y : Q) : ~ y == 0 -> jdiv (Fin x) (Fin y) = Fin (x / y).
Proof.
  intros H. simpl. destruct (Qeq_bool y 0) eqn:E; [|reflexivity].
  apply Qeq_bool_iff in E. contradiction.
Qed.

Lemma jor_Fin (x : Q) (b : jsnum) : ~ x == 0 -> jor (Fin x) b = Fin x.
Proof.
  intros H. simpl. destruct (Qeq_bool x 0) eqn:E; [|reflexivity].
  apply Qeq_bool_iff in E. contradiction.
Qed.

Lemma inject_nat_nonzero (n : nat) :
  (1 <= n)%nat -> ~ inject_Z (Z.of_nat n) == 0.
Proof.
  intros Hn H. unfold Qeq in H. simpl in H. lia.
Qed.

(** With a non-zero denominator the observed estimates are not all equal. *)
Lemma range_nonzero (data : list (Q * Q)) (mn mx : Q) :
  ~ xVariance data == 0 ->
  (forall x, In x (map fst data) -> mn <= x <= mx) ->
  ~ mx + - mn == 0.
Proof.
  intros Hv Hall Heq. apply Hv. apply (xVariance_constant mn).
  intros p Hp. destruct (Hall (fst p) (in_map fst _ _ Hp)) as [Hlo Hhi].
  apply Qle_antisym; [|exact Hlo].
  setoid_replace mn with mx; [exact Hhi|].
  setoid_replace mx with (mx + - mn + mn) by ring. rewrite Heq. ring.
Qed.

(** C8 (amended).  For a regression input of two or more points whose
    estimates are not all equal, the slope and the intercept are the finite
    least-squares values and the trend line has exactly two end points: their
    x-coordinates are the least and greatest observed estimate moved outwards
    by 10% of the observed range, the left one not below zero, and their
    y-coordinates are the fitted values [slope * x + intercept] clamped
    below at zero. *)
Theorem C8_trend_endpoints_clamped (data : list (Q * Q)) :
  (2 <= length data)%nat -> ~ xVariance data == 0 ->
  exists m b mn mx x1 y1 x2 y2,
    calculateTrendLine data
      = mkTrend [(Fin x1, Fin y1); (Fin x2, Fin y2)] (Fin m) (Fin b) /\
    In mn (map fst data) /\ In mx (map fst data) /\
    (forall x, In x (map fst data) -> mn <= x <= mx) /\
    x1 == Qmax 0 (mn - (1 # 10) * (mx - mn)) /\
    x2 == mx + (1 # 10) * (mx - mn) /\
    y1 == Qmax 0 (m * x1 + b) /\
    y2 == Qmax 0 (m * x2 + b) /\
    m == (inject_Z (Z.of_nat (length data)) * sumOf (fun p => fst p * snd p) data
          - sumOf fst data * sumOf snd data) / xVariance data /\
    b == (sumOf snd data - m * sumOf fst data)
         / inject_Z (Z.of_nat (length data)).
Proof.
  intros Hlen Hvar.
  assert (Hxs : map fst data <> []).
  { destruct data; [simpl in Hlen; lia | discriminate]. }
  destruct (jminList_spec _ Hxs) as (mn & Hmin & Hmn_in & Hmn).
  destruct (jmaxList_spec _ Hxs) as (mx & Hmax & Hmx_in & Hmx).
  assert (Hall : forall x, In x (map fst data) -> mn <= x <= mx) by (split; auto).
  pose proof (range_nonzero data mn mx Hvar Hall) as Hrange.
  pose proof (inject_nat_nonzero (length data) ltac:(lia)) as Hn.
  unfold calculateTrendLine.
  destruct (Nat.ltb_spec (length data) 2) as [|_]; [lia|].
  cbv zeta. rewrite Hmin, Hmax.
  cbn [jmul jsub jadd jneg].
  rewrite (jdiv_Fin _ _ Hvar).
  cbn [jmul jsub jadd jneg].
  rewrite (jdiv_Fin _ _ Hn).
  rewrite (jor_Fin _ _ Hrange).
  cbn [jmul jsub jadd jneg].
  destruct (jmax_Fin 0 (mn + - ((mx + - mn) * (1 # 10)))) as (x1 & Hx1 & Ex1).
  rewrite Hx1. cbn [jmul jsub jadd jneg].
  destruct (jmax_Fin 0
     ((inject_Z (Z.of_nat (length data)) * sumOf (fun p => fst p * snd p) data
       + - (sumOf fst data * sumOf snd data)) / xVariance data * x1
      + (sumOf snd data
         + - ((inject_Z (Z.of_nat (length data))
               * sumOf (fun p => fst p * snd p) data
               + - (sumOf fst data * sumOf snd data)) / xVariance data
              * sumOf fst data)) / inject_Z (Z.of_nat (length data))))
    as (y1 & Hy1 & Ey1).
  destruct (jmax_Fin 0
     ((inject_Z (Z.of_nat (length data)) * sumOf (fun p => fst p * snd p) data
       + - (sumOf fst data * sumOf snd data)) / xVariance data
      * (mx + (mx + - mn) * (1 # 10))
      + (sumOf snd data
         + - ((inject_Z (Z.of_nat (length data))
               * sumOf (fun p => fst p * snd p) data
               + - (sumOf fst data * sumOf snd data)) / xVariance data
              * sumOf fst data)) / inject_Z (Z.of_nat (length data))))
    as (y2 & Hy2 & Ey2).
  do 8 eexists. split.
  - unfold xVariance in Hy1, Hy2 |- *. unfold Qminus in Hy1, Hy2 |- *.
    rewrite Hy1, Hy2. reflexivity.
  - split; [exact Hmn_in|]. split; [exact Hmx_in|]. split; [exact Hall|].
    split; [rewrite Ex1; apply Q.max_compat; [reflexivity | ring]|].
    split; [ring|].
    split; [exact Ey1|]. split; [exact Ey2|].
    split; reflexivity.
Qed.

Lemma C8_trend_endpoints_clamped_witness :
  exists m b x1 y1 x2 y2,
    calculateTrendLine [(1, 1); (2, 12)]
      = mkTrend [(Fin x1, Fin y1); (Fin x2, Fin y2)] (Fin m) (Fin b) /\
    y1 == Qmax 0 (m * x1 + b) /\ y2 == Qmax 0 (m * x2 + b).
Proof.
  destruct (C8_trend_endpoints_clamped [(1, 1); (2, 12)])
    as (m & b & mn & mx & x1 & y1 & x2 & y2 & H & _ & _ & _ & _ & _ & Hy1 & Hy2 & _).
  - simpl. lia.
  - vm_compute. discriminate.
  - exists m, b, x1, y1, x2, y2. auto.
Defined.

(** C8, as stated, fails: for the points (1, 1) and (2, 12) the fitted line
    is [y = 11 x - 10], the left end point is at [x = 0.9] where the line
    is at [-0.1], and the code emits [y = 0] there. *)
Lemma C8_counterexample :
  ~ Forall2 samePoint
      (points (calculateTrendLine [(1, 1); (2, 12)]))
      (specTrendPoints [(1, 1); (2, 12)]).
Proof.
  intros H. vm_compute in H.
  inversion H as [|p q ps qs [_ Hy] _]; subst.
  discriminate Hy.
Qed.

(** The guard of [calculateTrendLine]: fewer than two points give the
    empty list of end points, and no trend-line dataset is pushed. *)
Lemma few_points_no_trend (data : list (Q * Q)) :
  (length data < 2)%nat ->
  calculateTrendLine data = mkTrend [] (Fin 0) (Fin 0).
Proof.
  intros H. unfold calculateTrendLine.
  destruct (Nat.ltb_spec (length data) 2); [reflexivity | lia].
Qed.

(** With two or more points and a zero denominator the slope is no
    finite number, and two end points are emitted all the same. *)
Lemma zero_variance_slope_not_finite (data : list (Q * Q)) :
  (2 <= length data)%nat -> xVariance data == 0 ->
  (forall q, slope (calculateTrendLine data) <> Fin q) /\
  length (points (calculateTrendLine data)) = 2%nat.
Proof.
  intros Hlen Hv. unfold calculateTrendLine.
  destruct (Nat.ltb_spec (length data) 2) as [|_]; [lia|].
  cbv zeta. cbn [slope points length]. split; [|reflexivity].
  cbn [jmul jsub jadd jneg]. unfold jdiv.
  assert (E : Qeq_bool (inject_Z (Z.of_nat (length data))
                          * sumOf (fun p => fst p * fst p) data
                        + - (sumOf fst data * sumOf fst data)) 0 = true).
  { apply Qeq_bool_iff. exact Hv. }
  rewrite E. intros q.
  destruct (_ ?= 0); discriminate.
Qed.

(** C2.  The code at a failing input: two records of one story point with
    2 and 3 hours.  The denominator of the slope is zero; slope and
    intercept are [NaN], and the trend-line dataset is pushed with two end
    points whose y-coordinates are [NaN]. *)
Theorem C2_zero_variance_emits_NaN :
  let data := [(1, 2); (1, 3)] in
  xVariance data == 0 /\
  slope (calculateTrendLine data) = NaN /\
  intercept (calculateTrendLine data) = NaN /\
  map snd (points (calculateTrendLine data)) = [NaN; NaN] /\
  sc_trendLine (scatterOf [mkProcessed "A-1" "first" 1 2; mkProcessed "A-2" "second" 1 3])
  = Some (points (calculateTrendLine data)).
Proof.
  cbv zeta. split; [vm_compute; reflexivity|].
  repeat split; vm_compute; reflexivity.
Qed.

(* ================================================================== *)
(** * The calendar *)

Open Scope Z_scope.

Lemma floor_step_4 (y : Z) :
  (y + 1 - 1969) / 4 - (y - 1969) / 4 = if y mod 4 =? 0 then 1 else 0.
Proof.
  destruct (Z.eqb_spec (y mod 4) 0); Z.to_euclidean_division_equations; lia.
Qed.

Lemma floor_step_100 (y : Z) :
  (y + 1 - 1901) / 100 - (y - 1901) / 100 = if y mod 100 =? 0 then 1 else 0.
Proof.
  destruct (Z.eqb_spec (y mod 100) 0); Z.to_euclidean_division_equations; lia.
Qed.

Lemma floor_step_400 (y : Z) :
  (y + 1 - 1601) / 400 - (y - 1601) / 400 = if y mod 400 =? 0 then 1 else 0.
Proof.
  destruct (Z.eqb_spec (y mod 400) 0); Z.to_euclidean_division_equations; lia.
Qed.

Lemma mod_100_4 (y : Z) : y mod 100 = 0 -> y mod 4 = 0.
Proof. Z.to_euclidean_division_equations; lia. Qed.

Lemma mod_400_100 (y : Z) : y mod 400 = 0 -> y mod 100 = 0.
Proof. Z.to_euclidean_division_equations; lia. Qed.

Lemma DayFromYear_succ (y : Z) : DayFromYear (y + 1) - DayFromYear y = DaysInYear y.
Proof.
  unfold DayFromYear, DaysInYear, InLeapYear.
  pose proof (floor_step_4 y) as H4.
  pose proof (floor_step_100 y) as H100.
  pose proof (floor_step_400 y) as H400.
  pose proof (mod_100_4 y) as M1.
  pose proof (mod_400_100 y) as M2.
  set (a := (y + 1 - 1969) / 4) in *. set (a' := (y - 1969) / 4) in *.
  set (b := (y + 1 - 1901) / 100) in *. set (b' := (y - 1901) / 100) in *.
  set (c := (y + 1 - 1601) / 400) in *. set (c' := (y - 1601) / 400) in *.
  clearbody a a' b b' c c'.
  destruct (Z.eqb_spec (y mod 4) 0), (Z.eqb_spec (y mod 100) 0),
           (Z.eqb_spec (y mod 400) 0); cbn [andb orb negb];
    try (exfalso; tauto); lia.
Qed.

(** Moving to the next month moves the day number by the length of a
    month. *)
Lemma MakeDay_month_step (y m dt : Z) :
  28 <= MakeDay y (m + 1) dt - MakeDay y m dt <= 31.
Proof.
  unfold MakeDay.
  assert (Hr : 0 <= m mod 12 < 12) by (apply Z.mod_pos_bound; lia).
  assert (Hcase :
    ((m + 1) / 12 = m / 12 /\ (m + 1) mod 12 = m mod 12 + 1 /\ m mod 12 < 11)
    \/ ((m + 1) / 12 = m / 12 + 1 /\ (m + 1) mod 12 = 0 /\ m mod 12 = 11)).
  { Z.to_euclidean_division_equations; lia. }
  destruct Hcase as [(Eq & Er & Hlt) | (Eq & Er & E11)]; rewrite Eq, Er.
  - assert (Hc : m mod 12 = 0 \/ m mod 12 = 1 \/ m mod 12 = 2 \/ m mod 12 = 3
                 \/ m mod 12 = 4 \/ m mod 12 = 5 \/ m mod 12 = 6
                 \/ m mod 12 = 7 \/ m mod 12 = 8 \/ m mod 12 = 9
                 \/ m mod 12 = 10) by lia.
    destruct (InLeapYear (y + m / 12));
      repeat (destruct Hc as [Hc | Hc]; [rewrite Hc; simpl; lia|]);
      rewrite Hc; simpl; lia.
  - rewrite E11. rewrite Z.add_assoc.
    pose proof (DayFromYear_succ (y + m / 12)) as Hy.
    unfold DaysInYear in Hy.
    destruct (InLeapYear (y + m / 12)), (InLeapYear (y + m / 12 + 1));
      simpl; lia.
Qed.

Lemma MakeDay_months_back (k : nat) (y m dt : Z) :
  MakeDay y (m - Z.of_nat k) dt + 28 * Z.of_nat k <= MakeDay y m dt.
Proof.
  induction k as [|k IH].
  - simpl. replace (m - 0) with m by lia. lia.
  - pose proof (MakeDay_month_step y (m - Z.of_nat (S k)) dt) as Hs.
    replace (m - Z.of_nat (S k) + 1) with (m - Z.of_nat k) in Hs by lia.
    lia.
Qed.

Lemma MakeDay_date (y m dt dt' : Z) :
  MakeDay y m dt' = MakeDay y m dt + (dt' - dt).
Proof. unfold MakeDay. lia. Qed.

(** The cut-off instants of the five windows, when both clock readings
    are the instant [t]. *)
Lemma cutoff_1h (t : JSDate) :
  valueOf (setHours t (getHours t - 1)) = valueOf t - 3600000.
Proof.
  unfold valueOf, setHours, MakeDate, MakeTime.
  cbn [getFullYear getMonth getDate getHours getMinutes getSeconds
       getMilliseconds].
  lia.
Qed.

Lemma cutoff_days (t : JSDate) (k : Z) :
  valueOf (setDate t (getDate t - k)) = valueOf t - k * msPerDay.
Proof.
  unfold valueOf, setDate, MakeDate.
  cbn [getFullYear getMonth getDate getHours getMinutes getSeconds
       getMilliseconds].
  rewrite (MakeDay_date _ _ (getDate t) (getDate t - k)). lia.
Qed.

Lemma cutoff_months (t : JSDate) (k : nat) :
  valueOf (setMonth t (getMonth t - Z.of_nat k))
  <= valueOf t - 28 * Z.of_nat k * msPerDay.
Proof.
  unfold valueOf, setMonth, MakeDate.
  cbn [getFullYear getMonth getDate getHours getMinutes getSeconds
       getMilliseconds].
  pose proof (MakeDay_months_back k (getFullYear t) (getMonth t) (getDate t)).
  unfold msPerDay. lia.
Qed.

Lemma cutoff_3m_1m (t : JSDate) :
  valueOf (setMonth t (getMonth t - 3)) <= valueOf (setMonth t (getMonth t - 1)).
Proof.
  unfold valueOf, setMonth, MakeDate.
  cbn [getFullYear getMonth getDate getHours getMinutes getSeconds
       getMilliseconds].
  pose proof (MakeDay_months_back 2 (getFullYear t) (getMonth t - 1) (getDate t)) as H.
  replace (getMonth t - 1 - Z.of_nat 2) with (getMonth t - 3) in H by lia.
  unfold msPerDay. lia.
Qed.

Close Scope Z_scope.

(* ================================================================== *)
(** * The time-window filter *)

Lemma filter_length_mono {A : Type} (f g : A -> bool) (l : list A) :
  (forall x, f x = true -> g x = true) ->
  (length (filter f l) <= length (filter g l))%nat.
Proof.
  intros H. induction l as [|x l IH]; simpl; [lia|].
  destruct (f x) eqn:E.
  - rewrite (H x E). simpl. lia.
  - destruct (g x); simpl; lia.
Qed.

Lemma filter_incl_mono {A : Type} (f g : A -> bool) (l : list A) :
  (forall x, f x = true -> g x = true) -> incl (filter f l) (filter g l).
Proof.
  intros H x Hx. apply filter_In in Hx as [Hin Hf].
  apply filter_In. auto.
Qed.

Lemma filter_length_all {A : Type} (f : A -> bool) (l : list A) :
  (length (filter f l) <= length l)%nat.
Proof.
  induction l as [|x l IH]; simpl; [lia|]. destruct (f x); simpl; lia.
Qed.

Lemma updatedSince_mono (c1 c2 : JSDate) (issue : JiraIssue) :
  (valueOf c1 <= valueOf c2)%Z ->
  updatedSince c2 issue = true -> updatedSince c1 issue = true.
Proof.
  unfold updatedSince. intros H. destruct (updated issue); [|auto].
  rewrite !Z.leb_le. lia.
Qed.

(** The filter, window by window. *)
Lemma filter_all (now c : JSDate) (issues : list JiraIssue) :
  filterIssuesByTime now c issues "all" = issues.
Proof. reflexivity. Qed.

Lemma filter_1h (now c : JSDate) (issues : list JiraIssue) :
  filterIssuesByTime now c issues "1h"
  = filter (updatedSince (setHours c (getHours now - 1))) issues.
Proof. reflexivity. Qed.

Lemma filter_1d (now c : JSDate) (issues : list JiraIssue) :
  filterIssuesByTime now c issues "1d"
  = filter (updatedSince (setDate c (getDate now - 1))) issues.
Proof. reflexivity. Qed.

Lemma filter_1w (now c : JSDate) (issues : list JiraIssue) :
  filterIssuesByTime now c issues "1w"
  = filter (updatedSince (setDate c (getDate now - 7))) issues.
Proof. reflexivity. Qed.

Lemma filter_1m (now c : JSDate) (issues : list JiraIssue) :
  filterIssuesByTime now c issues "1m"
  = filter (updatedSince (setMonth c (getMonth now - 1))) issues.
Proof. reflexivity. Qed.

Lemma filter_3m (now c : JSDate) (issues : list JiraIssue) :
  filterIssuesByTime now c issues "3m"
  = filter (updatedSince (setMonth c (getMonth now - 3))) issues.
Proof. reflexivity. Qed.

(** An unknown window keeps every issue (the [default] branch). *)
Lemma filter_unknown (now c : JSDate) (issues : list JiraIssue) (w : string) :
  windowRank w = None -> filterIssuesByTime now c issues w = issues.
Proof.
  unfold windowRank, filterIssuesByTime, cutoffOf.
  destruct (String.eqb w "all"); [reflexivity|].
  destruct (String.eqb w "1h"); [discriminate|].
  destruct (String.eqb w "1d"); [discriminate|].
  destruct (String.eqb w "1w"); [discriminate|].
  destruct (String.eqb w "1m"); [discriminate|].
  destruct (String.eqb w "3m"); [discriminate|]. reflexivity.
Qed.

Lemma windowRank_cases (w : string) (r : nat) :
  windowRank w = Some r ->
  (w = "1h"%string /\ r = 0%nat) \/ (w = "1d"%string /\ r = 1%nat)
  \/ (w = "1w"%string /\ r = 2%nat) \/ (w = "1m"%string /\ r = 3%nat)
  \/ (w = "3m"%string /\ r = 4%nat) \/ (w = "all"%string /\ r = 5%nat).
Proof.
  unfold windowRank.
  destruct (String.eqb_spec w "1h"); [intros [= <-]; tauto|].
  destruct (String.eqb_spec w "1d"); [intros [= <-]; tauto|].
  destruct (String.eqb_spec w "1w"); [intros [= <-]; tauto|].
  destruct (String.eqb_spec w "1m"); [intros [= <-]; tauto|].
  destruct (String.eqb_spec w "3m"); [intros [= <-]; tauto|].
  destruct (String.eqb_spec w "all"); [intros [= <-]; tauto|].
  discriminate.
Qed.

(** The cut-off instants of the windows are ordered as the windows. *)
Lemma cutoffs_ordered (t : JSDate) :
  (valueOf (setMonth t (getMonth t - 3)) <= valueOf (setMonth t (getMonth t - 1))
   /\ valueOf (setMonth t (getMonth t - 1)) <= valueOf (setDate t (getDate t - 7))
   /\ valueOf (setDate t (getDate t - 7)) <= valueOf (setDate t (getDate t - 1))
   /\ valueOf (setDate t (getDate t - 1)) <= valueOf (setHours t (getHours t - 1)))%Z.
Proof.
  pose proof (cutoff_3m_1m t). pose proof (cutoff_months t 1).
  pose proof (cutoff_days t 7). pose proof (cutoff_days t 1).
  pose proof (cutoff_1h t).
  change (Z.of_nat 1) with 1%Z in *. unfold msPerDay in *. lia.
Qed.

(** Window monotonicity, for windows [a] at least as wide as [b]. *)
Lemma filter_window_mono (t : JSDate) (issues : list JiraIssue)
    (a b : string) (ra rb : nat) :
  windowRank a = Some ra -> windowRank b = Some rb -> (rb <= ra)%nat ->
  (length (filterIssuesByTime t t issues b)
   <= length (filterIssuesByTime t t issues a))%nat
  /\ incl (filterIssuesByTime t t issues b) (filterIssuesByTime t t issues a).
Proof.
  intros Ha Hb Hle.
  destruct (cutoffs_ordered t) as (H43 & H32 & H21 & H10).
  apply windowRank_cases in Ha, Hb.
  assert (Hall : forall c, incl (filter (updatedSince c) issues) issues)
    by (intros c; apply incl_filter).
  destruct Ha as [[-> ->]|[[-> ->]|[[-> ->]|[[-> ->]|[[-> ->]|[-> ->]]]]]];
  destruct Hb as [[-> ->]|[[-> ->]|[[-> ->]|[[-> ->]|[[-> ->]|[-> ->]]]]]];
    try lia;
    rewrite ?filter_all, ?filter_1h, ?filter_1d, ?filter_1w, ?filter_1m,
            ?filter_3m;
    (split;
     [ first [ apply filter_length_all
             | apply filter_length_mono; intros x; apply updatedSince_mono; lia
             | lia ]
     | first [ apply Hall
             | apply filter_incl_mono; intros x; apply updatedSince_mono; lia
             | apply incl_refl ] ]).
Qed.

(** C9.  With the records and the clock reading [t] fixed, a window that
    covers a strictly wider range than another (among 1h, 1d, 1w, 1m, 3m,
    all) returns at least as many records; in fact it returns every record
    the narrower one returns. *)
Theorem C9_window_monotonicity (t : JSDate) (issues : list JiraIssue)
    (window_a window_b : string) (ra rb : nat) :
  windowRank window_a = Some ra -> windowRank window_b = Some rb ->
  (rb < ra)%nat ->
  (length (filterIssuesByTime t t issues window_b)
   <= length (filterIssuesByTime t t issues window_a))%nat
  /\ incl (filterIssuesByTime t t issues window_b)
          (filterIssuesByTime t t issues window_a).
Proof.
  intros Ha Hb Hlt.
  apply (filter_window_mono t issues window_a window_b ra rb Ha Hb). lia.
Qed.

Lemma C9_window_monotonicity_witness :
  windowRank "3m" = Some 4%nat /\ windowRank "1m" = Some 3%nat /\ (3 < 4)%nat /\
  (length (filterIssuesByTime march31_1000 march31_1000
             [sampleIssue "A-1" feb15 1 3600] "1m")
   <= length (filterIssuesByTime march31_1000 march31_1000
                [sampleIssue "A-1" feb15 1 3600] "3m"))%nat.
Proof.
  split; [reflexivity|]. split; [reflexivity|]. split; [lia|].
  refine (proj1 (C9_window_monotonicity march31_1000
                   [sampleIssue "A-1" feb15 1 3600] "3m" "1m" 4 3 _ _ _));
    [reflexivity | reflexivity | lia].
Defined.

(** On 31 March the one-month window starts on 2 March (31 February,
    normalised), so an issue of 15 February is outside it and inside the
    three-month window. *)
Example window_1m_month_overflow :
  filterIssuesByTime march31_1000 march31_1000
    [sampleIssue "A-1" feb15 1 3600] "1m" = []
  /\ filterIssuesByTime march31_1000 march31_1000
       [sampleIssue "A-1" feb15 1 3600] "3m"
     = [sampleIssue "A-1" feb15 1 3600].
Proof. split; vm_compute; reflexivity. Qed.

(* ================================================================== *)
(** * Determinism *)

Lemma filter_same_cutoff (r r' : JSDate * JSDate) (issues : list JiraIssue)
    (w : string) :
  sameCutoff r r' w ->
  filterIssuesByTime (fst r) (snd r) issues w
  = filterIssuesByTime (fst r') (snd r') issues w.
Proof.
  unfold sameCutoff, filterIssuesByTime. intros H.
  destruct (String.eqb w "all"); [reflexivity|].
  destruct (cutoffOf (fst r) (snd r) w) as [c|],
           (cutoffOf (fst r') (snd r') w) as [c'|];
    simpl in H; try discriminate; [|reflexivity].
  injection H as H. apply filter_ext. intros issue.
  unfold updatedSince. now rewrite H.
Qed.

(** C3 (amended).  The pipeline has neither randomness nor hidden state,
    but [now] is not a parameter: each chart builder reads the wall clock
    inside [filterIssuesByTime].  Two runs on the same records and window
    return equal outputs whenever the cut-off instants computed from their
    clock readings are equal; for the window "all", which computes no
    cut-off, that is always the case. *)
Theorem C3_deterministic_given_clock
    (r1 r2 r3 r1' r2' r3' : JSDate * JSDate)
    (issues : list JiraIssue) (timeFilter : string) :
  sameCutoff r1 r1' timeFilter ->
  sameCutoff r2 r2' timeFilter ->
  sameCutoff r3 r3' timeFilter ->
  recompute r1 r2 r3 issues timeFilter
  = recompute r1' r2' r3' issues timeFilter.
Proof.
  intros H1 H2 H3.
  unfold recompute, createBoxplotData, createScatterplotData,
    createHistogramData, processIssuesForCharts.
  rewrite (filter_same_cutoff r1 r1' issues timeFilter H1).
  rewrite (filter_same_cutoff r2 r2' issues timeFilter H2).
  rewrite (filter_same_cutoff r3 r3' issues timeFilter H3).
  reflexivity.
Qed.

Lemma C3_deterministic_given_clock_witness :
  let a := (march31_1000, march31_1000) in
  let b := (march31_1200, march31_1200) in
  recompute a a a [sampleIssue "A-1" march31_0930 1 3600] "all"
  = recompute b b b [sampleIssue "A-1" march31_0930 1 3600] "all".
Proof.
  cbv zeta.
  apply (C3_deterministic_given_clock
           (march31_1000, march31_1000) (march31_1000, march31_1000)
           (march31_1000, march31_1000)
           (march31_1200, march31_1200) (march31_1200, march31_1200)
           (march31_1200, march31_1200));
    vm_compute; reflexivity.
Defined.

(** C3, as stated, fails: the same records and the same window "1h" give
    different charts at two readings of the clock.  The issue was updated
    at 09:30; at 10:00 it is within the past hour, at 12:00 it is not. *)
Lemma C3_counterexample :
  let issues := [sampleIssue "A-1" march31_0930 1 3600] in
  let a := (march31_1000, march31_1000) in
  let b := (march31_1200, march31_1200) in
  filterIssuesByTime (fst a) (snd a) issues "1h" = issues /\
  filterIssuesByTime (fst b) (snd b) issues "1h" = [] /\
  recompute a a a issues "1h" <> recompute b b b issues "1h".
Proof.
  cbv zeta. split; [vm_compute; reflexivity|].
  split; [vm_compute; reflexivity|].
  intros H. apply (f_equal ch_histogram) in H.
  vm_compute in H. discriminate H.
Qed.

(* ================================================================== *)
(** * Effort extraction *)

Lemma Qgt0_nonneg (s : Q) : 0 <= s -> Qgt0 s = negb (Qeq_bool s 0).
Proof.
  intros H. destruct (Qeq_bool s 0) eqn:E; simpl.
  - apply Qeq_bool_iff in E. apply not_true_iff_false. intros G.
    apply Qgt0_iff in G. rewrite E in G. discriminate.
  - apply Qgt0_iff. apply Qle_lteq in H as [H|H]; [exact H|].
    apply not_true_iff_false in E. exfalso. apply E.
    apply Qeq_bool_iff. now symmetry.
Qed.

Lemma fold_Qplus_nonneg (l : list Q) :
  Forall (fun s => 0 <= s) l -> forall a, 0 <= a -> 0 <= fold_left Qplus l a.
Proof.
  induction 1 as [|s l Hs Hl IH]; intros a Ha; simpl; [exact Ha|].
  apply IH. setoid_replace 0 with (0 + 0) by ring.
  now apply Qplus_le_compat.
Qed.

Lemma sumSeconds_nonneg (l : list Q) :
  Forall (fun s => 0 <= s) l -> 0 <= sumSeconds l.
Proof. intros H. apply fold_Qplus_nonneg; [exact H | apply Qle_refl]. Qed.

(** A source that is not negative either holds a positive number, which
    the test [if (v)] accepts, or counts as zero, and the test rejects it. *)
Lemma source_cases (v : option Q) :
  0 <= optNum v ->
  (exists s, v = Some s /\ whenTruthy v = Some s /\ 0 < s
             /\ Qgt0 (optNum v) = true)
  \/ (whenTruthy v = None /\ optNum v == 0 /\ Qgt0 (optNum v) = false).
Proof.
  intros H. pose proof (Qgt0_nonneg _ H) as Hg.
  destruct v as [s|]; simpl in *.
  - destruct (Qeq_bool s 0) eqn:E.
    + right. apply Qeq_bool_iff in E. auto.
    + left. exists s. repeat split; auto. now apply Qgt0_iff.
  - right. split; [reflexivity|]. split; [reflexivity | exact Hg].
Qed.

(** The last source: the work-log sum, or nothing. *)
Lemma worklog_source (wl : option (list Q)) :
  Forall (fun s => 0 <= s) (groupOr wl) ->
  match wl with
  | Some (e :: l) => sumSeconds (e :: l) / 3600
  | _ => 0
  end == firstPositive [sumSeconds (groupOr wl)] / 3600
  /\ match wl with
     | Some (e :: l) => sumSeconds (e :: l) / 3600
     | _ => 0
     end == sumSeconds (groupOr wl) / 3600.
Proof.
  intros H. destruct wl as [[|e l]|]; simpl groupOr in *.
  - split; vm_compute; reflexivity.
  - cbn [firstPositive]. pose proof (sumSeconds_nonneg _ H) as Hs.
    rewrite (Qgt0_nonneg _ Hs). split; [|reflexivity].
    destruct (Qeq_bool (sumSeconds (e :: l)) 0) eqn:E; simpl; [|reflexivity].
    apply Qeq_bool_iff in E. now rewrite E.
  - split; vm_compute; reflexivity.
Qed.

(** The test [if (v)] on an optional number: it holds a number that is
    not zero, which the test accepts, or it counts as zero. *)
Lemma whenTruthy_cases (v : option Q) :
  (exists s, v = Some s /\ whenTruthy v = Some s /\ ~ s == 0
             /\ Qeq_bool (optNum v) 0 = false)
  \/ (whenTruthy v = None /\ optNum v == 0 /\ Qeq_bool (optNum v) 0 = true).
Proof.
  destruct v as [s|]; simpl.
  - destruct (Qeq_bool s 0) eqn:E.
    + right. apply Qeq_bool_iff in E. auto.
    + left. exists s. repeat split; auto.
      intros H. apply Qeq_bool_iff in H. congruence.
  - right. repeat split; reflexivity.
Qed.

(** The reduction of the work log, which adds each entry to the running
    sum from the left, yields the total of the entries. *)
Lemma fold_Qplus_total (l : list Q) (a : Q) :
  fold_left Qplus l a == a + totalSeconds l.
Proof.
  revert a. induction l as [|s l IH]; intros a; simpl; [ring|].
  rewrite IH. ring.
Qed.

Lemma sumSeconds_total (l : list Q) : sumSeconds l == totalSeconds l.
Proof. unfold sumSeconds. rewrite fold_Qplus_total. ring. Qed.

Lemma totalSeconds_nonneg (l : list Q) :
  Forall (fun s => 0 <= s) l -> 0 <= totalSeconds l.
Proof.
  induction 1 as [|s l Hs Hl IH]; simpl; [apply Qle_refl|].
  setoid_replace 0 with (0 + 0) by ring. now apply Qplus_le_compat.
Qed.

(** The last branch of the extraction: the total of the work log, zero
    for an empty or absent one. *)
Lemma worklog_total (wl : option (list Q)) :
  match wl with
  | Some (e :: l) => sumSeconds (e :: l) / 3600
  | _ => 0
  end == totalSeconds (groupOr wl) / 3600.
Proof.
  destruct wl as [[|e l]|]; simpl groupOr.
  - vm_compute. reflexivity.
  - now rewrite sumSeconds_total.
  - vm_compute. reflexivity.
Qed.

Lemma firstTruthy_one (c : Q) : firstTruthy [c] == c.
Proof.
  cbn [firstTruthy]. destruct (Qeq_bool c 0) eqn:E; [|reflexivity].
  apply Qeq_bool_iff in E. now rewrite E.
Qed.

Lemma firstPositive_one (c : Q) : 0 <= c -> firstPositive [c] == c.
Proof.
  intros H. cbn [firstPositive]. rewrite (Qgt0_nonneg _ H).
  destruct (Qeq_bool c 0) eqn:E; simpl; [|reflexivity].
  apply Qeq_bool_iff in E. now rewrite E.
Qed.

(** C7.  For every issue, the hours are the seconds of the first of the
    three sources, taken in the order (a) [timespent],
    (b) [timetracking.timeSpentSeconds], (c) the total of the entries of
    [worklog.worklogs], that is not zero, divided by 3600 (and zero when
    all three are zero or absent); that source is taken alone, sources are
    never added to one another.  When no logged duration is negative, it
    is the first source that is positive. *)
Theorem C7_effort_first_nonzero_source (issue : JiraIssue) :
  extractTimeSpentHours issue == firstTruthy (effortSeconds issue) / 3600 /\
  (forall a, timespent issue = Some a -> ~ a == 0 ->
     extractTimeSpentHours issue = a / 3600) /\
  (forall b, optNum (timespent issue) == 0 ->
     trackedSeconds issue = Some b -> ~ b == 0 ->
     extractTimeSpentHours issue = b / 3600) /\
  (optNum (timespent issue) == 0 -> optNum (trackedSeconds issue) == 0 ->
     extractTimeSpentHours issue
     == totalSeconds (groupOr (worklogEntries issue)) / 3600) /\
  (nonNegativeSeconds issue ->
     extractTimeSpentHours issue
     == firstPositive (effortSeconds issue) / 3600).
Proof.
  unfold extractTimeSpentHours, effortSeconds, nonNegativeSeconds.
  pose proof (worklog_total (worklogEntries issue)) as Hw.
  pose proof (firstTruthy_one (totalSeconds (groupOr (worklogEntries issue))))
    as Hone.
  cbn [firstTruthy firstPositive] in Hone |- *.
  destruct (whenTruthy_cases (timespent issue))
    as [(a & Ea & Ta & Na & Ba) | (Ta & Za & Ba)]; rewrite Ta, Ba.
  - (* (a) is not zero and wins *)
    rewrite Ea in *. simpl optNum in *.
    split; [reflexivity|]. split; [now intros ? [= <-] _|].
    split; [intros b Hz; contradiction|].
    split; [intros Hz; contradiction|].
    intros (Ha & _ & _). rewrite (Qgt0_nonneg _ Ha), Ba. reflexivity.
  - destruct (whenTruthy_cases (trackedSeconds issue))
      as [(b & Eb & Tb & Nb & Bb) | (Tb & Zb & Bb)]; rewrite Tb, Bb.
    + (* (a) is zero or absent, (b) is not zero and wins *)
      rewrite Eb in *. simpl optNum in *.
      split; [reflexivity|].
      split; [intros a Ea Na; rewrite Ea in Za; contradiction|].
      split; [now intros ? _ [= <-] _|].
      split; [intros _ Hz; contradiction|].
      intros (Ha & Hb & _).
      rewrite (Qgt0_nonneg _ Ha), Ba, (Qgt0_nonneg _ Hb), Bb. reflexivity.
    + (* (a) and (b) are zero or absent: the total of the work log *)
      split; [now rewrite Hw, Hone|].
      split; [intros a Ea Na; rewrite Ea in Za; contradiction|].
      split; [intros b _ Eb Nb; rewrite Eb in Zb; contradiction|].
      split; [intros _ _; exact Hw|].
      intros (Ha & Hb & Hc).
      rewrite (Qgt0_nonneg _ Ha), Ba, (Qgt0_nonneg _ Hb), Bb. cbn [negb].
      pose proof (firstPositive_one _ (totalSeconds_nonneg _ Hc)) as Hp.
      cbn [firstPositive] in Hp. now rewrite Hw, Hp.
Qed.

Lemma issueThreeSources_nonNegative : nonNegativeSeconds issueThreeSources.
Proof.
  repeat split; try (apply Qle_bool_iff; reflexivity).
  repeat constructor; apply Qle_bool_iff; reflexivity.
Defined.

(** The work log is reached when the two sources before it hold nothing:
    1800 and 5400 seconds of work log are two hours. *)
Lemma C7_effort_first_nonzero_source_witness :
  optNum (timespent issueWorklogOnly) == 0 /\
  optNum (trackedSeconds issueWorklogOnly) == 0 /\
  extractTimeSpentHours issueWorklogOnly == (1800 + 5400) / 3600 /\
  extractTimeSpentHours issueThreeSources = 7200 / 3600.
Proof.
  destruct (C7_effort_first_nonzero_source issueWorklogOnly)
    as (_ & _ & _ & Hc & _).
  destruct (C7_effort_first_nonzero_source issueThreeSources)
    as (_ & _ & Hb & _).
  split; [reflexivity|]. split; [reflexivity|].
  split; [exact (Hc eq_refl eq_refl)|].
  apply (Hb 7200); [reflexivity | reflexivity | discriminate].
Defined.

(** The claim as the specification words it, the first positive source,
    fails on a direct total that is negative: the test [if (timespent)]
    accepts it, and the 7200 seconds of the time-tracking summary are not
    looked at. *)
Lemma C7_counterexample :
  extractTimeSpentHours issueNegativeTotal == -1 /\
  specTimeSpentHours issueNegativeTotal == 2 /\
  ~ extractTimeSpentHours issueNegativeTotal
    == specTimeSpentHours issueNegativeTotal.
Proof.
  split; [vm_compute; reflexivity|]. split; [vm_compute; reflexivity|].
  intros H. vm_compute in H. discriminate H.
Qed.

(* ================================================================== *)
(** * Histogram *)

(** Every positive duration lies in exactly one bucket. *)
Lemma one_bucket (p : ProcessedIssue) :
  Qgt0 (timeSpentHours p) = true ->
  list_sum (map (fun b => if inBucket b p then 1 else 0)%nat buckets) = 1%nat.
Proof.
  intros Hpos. apply Qgt0_iff in Hpos.
  unfold buckets, inBucket.
  cbn [map b_min b_max jleb jltb list_sum].
  set (h := timeSpentHours p) in *.
  destruct (Qle_bool 0 h) eqn:E0, (Qle_bool 5 h) eqn:E5,
           (Qle_bool 10 h) eqn:E10, (Qle_bool 20 h) eqn:E20,
           (Qle_bool 40 h) eqn:E40;
    try reflexivity; exfalso;
    repeat match goal with
           | H : Qle_bool _ _ = true |- _ => apply Qle_bool_iff in H
           | H : Qle_bool _ _ = false |- _ =>
               apply not_true_iff_false in H; rewrite Qle_bool_iff in H
           end;
    lra.
Qed.

Lemma sum_counts_cons {K B : Type} (f : K -> B -> bool) (x : B) (l : list B)
    (ks : list K) :
  list_sum (map (fun k => length (filter (f k) (x :: l))) ks)
  = (list_sum (map (fun k => if f k x then 1 else 0) ks)
     + list_sum (map (fun k => length (filter (f k) l)) ks))%nat.
Proof.
  induction ks as [|k ks IH]; simpl; [reflexivity|].
  simpl in IH. rewrite IH. destruct (f k x); simpl; lia.
Qed.

Lemma sum_indicator {K : Type} (f : K -> bool) (ks : list K) :
  list_sum (map (fun k => if f k then 1 else 0)%nat ks) = length (filter f ks).
Proof.
  induction ks as [|k ks IH]; simpl; [reflexivity|].
  rewrite IH. destruct (f k); reflexivity.
Qed.

(** The bucket counts of records with positive hours add up to their
    number. *)
Lemma bucketCounts_sum (l : list ProcessedIssue) :
  Forall (fun p => Qgt0 (timeSpentHours p) = true) l ->
  list_sum (bucketCounts l) = length l.
Proof.
  unfold bucketCounts. induction 1 as [|p l Hp Hl IH].
  - reflexivity.
  - rewrite sum_counts_cons, IH, (one_bucket p Hp). reflexivity.
Qed.

Lemma Forall_filter {A : Type} (P : A -> Prop) (f : A -> bool) (l : list A) :
  Forall P l -> Forall P (filter f l).
Proof.
  intros H. apply Forall_forall. intros x Hx. apply filter_In in Hx as [Hx _].
  rewrite Forall_forall in H. auto.
Qed.

Lemma Forall_filter_true {A : Type} (f : A -> bool) (l : list A) :
  Forall (fun x => f x = true) (filter f l).
Proof.
  apply Forall_forall. intros x Hx. now apply filter_In in Hx as [_ Hx].
Qed.

(** Distinct values. *)
Lemma cnt_app (x : Q) (l l' : list Q) : cnt x (l ++ l') = (cnt x l + cnt x l')%nat.
Proof. unfold cnt. now rewrite filter_app, length_app. Qed.

Lemma cnt_congr (x z : Q) (l : list Q) :
  Qeq_bool x z = true -> cnt x l = cnt z l.
Proof.
  intros H. unfold cnt. f_equal. apply filter_ext. intros u.
  now apply Qeq_bool_trans_l.
Qed.

Lemma memNum_cnt (x : Q) (l : list Q) :
  if memNum x l then (1 <= cnt x l)%nat else cnt x l = 0%nat.
Proof.
  unfold cnt. induction l as [|y l IH]; simpl; [reflexivity|].
  rewrite (Qeq_bool_sym x y). destruct (Qeq_bool y x); simpl.
  - lia.
  - exact IH.
Qed.

Lemma cnt_perm (x : Q) (l l' : list Q) :
  Permutation l l' -> cnt x l = cnt x l'.
Proof.
  unfold cnt. induction 1 as [|y l l' _ IH|y z l|l l' l'' _ IH1 _ IH2]; simpl.
  - reflexivity.
  - destruct (Qeq_bool x y); simpl; congruence.
  - destruct (Qeq_bool x y), (Qeq_bool x z); reflexivity.
  - congruence.
Qed.

Lemma uniqueNums_fold (xs : list Q) :
  forall seen,
    (forall z, cnt z seen <= 1)%nat ->
    let r := fold_left
               (fun seen x => if memNum x seen then seen else seen ++ [x])
               xs seen in
    (forall z, cnt z r <= 1)%nat /\
    (forall z, 1 <= cnt z seen -> 1 <= cnt z r)%nat /\
    (forall x, In x xs -> 1 <= cnt x r)%nat.
Proof.
  induction xs as [|x xs IH]; intros seen Hseen; cbn [fold_left].
  - cbv zeta. split; [exact Hseen|]. split; [auto|]. intros ? [].
  - pose proof (memNum_cnt x seen) as Hm.
    destruct (memNum x seen).
    + destruct (IH seen Hseen) as (H1 & H2 & H3).
      cbv zeta. split; [exact H1|]. split; [exact H2|].
      intros y [<-|Hy]; auto.
    + assert (Hseen' : forall z, (cnt z (seen ++ [x]) <= 1)%nat).
      { intros z. rewrite cnt_app. unfold cnt at 2. simpl.
        destruct (Qeq_bool z x) eqn:E; simpl.
        - rewrite (cnt_congr z x seen E). lia.
        - specialize (Hseen z). lia. }
      destruct (IH (seen ++ [x]) Hseen') as (H1 & H2 & H3).
      cbv zeta. split; [exact H1|]. split.
      * intros z Hz. apply H2. rewrite cnt_app. lia.
      * intros y [<-|Hy]; [|auto].
        apply H2. rewrite cnt_app. unfold cnt at 2. simpl.
        assert (Qeq_bool x x = true) as -> by (apply Qeq_bool_iff; reflexivity).
        simpl. lia.
Qed.

Lemma uniqueNums_once (xs : list Q) (x : Q) :
  In x xs -> cnt x (sortNum (uniqueNums xs)) = 1%nat.
Proof.
  intros Hx. rewrite <- (cnt_perm x _ _ (sortNum_perm (uniqueNums xs))).
  destruct (uniqueNums_fold xs [] (fun z => Nat.le_0_l 1)) as (H1 & _ & H3).
  unfold uniqueNums. specialize (H1 x). specialize (H3 x Hx). lia.
Qed.

(** The per-value groups partition the records they are taken from. *)
Lemma groups_partition (us : list Q) (l : list ProcessedIssue) :
  (forall p, In p l -> cnt (storyPoints p) us = 1%nat) ->
  list_sum (map (fun u => length (filter
                   (fun issue => Qeq_bool (storyPoints issue) u) l)) us)
  = length l.
Proof.
  induction l as [|p l IH]; intros H.
  - simpl. clear H. induction us as [|u us IHu]; simpl; [reflexivity | exact IHu].
  - rewrite (sum_counts_cons (fun u issue => Qeq_bool (storyPoints issue) u)).
    rewrite IH by (intros; apply H; now right).
    rewrite sum_indicator. cbv beta.
    change (length (filter (Qeq_bool (storyPoints p)) us))
      with (cnt (storyPoints p) us).
    rewrite (H p (or_introl eq_refl)). reflexivity.
Qed.


Lemma no_bucket_zero_sum (data : list nat) :
  existsb (fun count => (0 <? count)%nat) data = false -> list_sum data = 0%nat.
Proof.
  induction data as [|c data IH]; simpl; [reflexivity|].
  destruct (Nat.ltb_spec 0 c); simpl; [discriminate|].
  intros H'. rewrite (IH H'). lia.
Qed.




(** Estimates extracted from fields that are not negative are not
    negative. *)
Lemma js_or_nonneg (a : option Q) (b : Q) :
  0 <= optNum a -> 0 <= b -> 0 <= js_or a b.
Proof.
  intros Ha Hb. destruct a as [q|]; simpl in *; [|exact Hb].
  destruct (Qeq_bool q 0); assumption.
Qed.

Lemma numericFields_positive (issue : JiraIssue) (k : string) (v : Q) :
  In (k, v) (numericFields issue) -> 0 < v.
Proof.
  unfold numericFields. intros H. apply in_flat_map in H as ([k' fv] & _ & H).
  destruct fv as [q|]; simpl in H; [|contradiction].
  destruct (Qgt0 q) eqn:E; simpl in H; [|contradiction].
  destruct (Qle_bool q 100); simpl in H; [|contradiction].
  destruct H as [[= _ <-]|[]]. now apply Qgt0_iff.
Qed.

Lemma extractStoryPoints_nonneg (issue : JiraIssue) :
  nonNegativeEstimates issue -> 0 <= extractStoryPoints issue.
Proof.
  intros (H1 & H2 & H3 & H4 & H5). unfold extractStoryPoints. cbv zeta.
  assert (H : 0 <= js_or (customfield_10016 issue)
                     (js_or (customfield_10004 issue)
                        (js_or (customfield_10002 issue)
                           (js_or (customfield_10003 issue)
                              (js_or (customfield_10005 issue) 0))))).
  { repeat (apply js_or_nonneg; [assumption|]). apply Qle_refl. }
  destruct (Qeq_bool _ 0); [|exact H].
  destruct (numericFields issue) as [|[k v] rest] eqn:E; [exact H|].
  apply Qlt_le_weak. apply (numericFields_positive issue k).
  rewrite E. now left.
Qed.

Lemma processed_estimates_nonneg (now cutoffDate : JSDate)
    (issues : list JiraIssue) (timeFilter : string) :
  Forall nonNegativeEstimates issues ->
  Forall (fun p => 0 <= storyPoints p)
         (processIssuesForCharts now cutoffDate issues timeFilter).
Proof.
  intros H. unfold processIssuesForCharts. apply Forall_filter.
  apply Forall_map. simpl.
  assert (Hsub : incl (filterIssuesByTime now cutoffDate issues timeFilter)
                      issues).
  { unfold filterIssuesByTime.
    destruct (String.eqb timeFilter "all"); [apply incl_refl|].
    destruct (cutoffOf now cutoffDate timeFilter);
      [apply incl_filter | apply incl_refl]. }
  apply Forall_forall. intros issue Hin.
  apply extractStoryPoints_nonneg.
  rewrite Forall_forall in H. auto.
Qed.







(** The histogram of the specification's scenario: three records of
    estimate 1 in the bucket 0-5h, the record of estimate 3 in 5-10h, and
    the record without estimate in the catch-all series. *)
Example histogram_scenario :
  createHistogramData march31_1000 march31_1000 scenarioIssues "all"
  = [ mkSeries (SP (Qmake 1 1)) [3; 0; 0; 0; 0]%nat;
      mkSeries (SP (Qmake 3 1)) [0; 1; 0; 0; 0]%nat;
      mkSeries NoStoryPoints [0; 1; 0; 0; 0]%nat ].
Proof. vm_compute. reflexivity. Qed.

(* ================================================================== *)
(** * Performance-deviation score *)

(** C4.  The score of a group is
    [|groupMean - estimateValue * expectedHoursPerPoint|
     / (estimateValue * expectedHoursPerPoint)], with
    [expectedHoursPerPoint] the ratio of the total hours to the total
    estimate points over all groups; the group is "on-target" below 0.15,
    "moderate-deviation" in [0.15, 0.30), "high-deviation" from 0.30 on, and
    "undefined" exactly when its expected hours are zero. *)
Theorem C4_performance_deviation (groups : list EstimateGroup)
    (g : EstimateGroup) :
  expectedHoursPerPoint groups
  == totalHoursAcrossAllGroups groups
     / totalEstimatePointsAcrossAllGroups groups /\
  percentDiff groups g
  == Qabs (groupMean g - fst g * expectedHoursPerPoint groups)
     / (fst g * expectedHoursPerPoint groups) /\
  (classify groups g = Undefined <-> expectedHours groups g == 0) /\
  (classify groups g = OnTarget <->
     ~ expectedHours groups g == 0 /\ percentDiff groups g < 15 # 100) /\
  (classify groups g = ModerateDeviation <->
     ~ expectedHours groups g == 0 /\
     15 # 100 <= percentDiff groups g /\ percentDiff groups g < 30 # 100) /\
  (classify groups g = HighDeviation <->
     ~ expectedHours groups g == 0 /\ 30 # 100 <= percentDiff groups g).
Proof.
  split; [reflexivity|]. split; [reflexivity|].
  unfold classify.
  set (e := expectedHours groups g). set (d := percentDiff groups g).
  destruct (Qeq_bool e 0) eqn:E.
  - apply Qeq_bool_iff in E.
    intuition (try discriminate; try reflexivity).
  - assert (Hne : ~ e == 0).
    { intros H. apply Qeq_bool_iff in H. congruence. }
    destruct (Qlt_bool d (15 # 100)) eqn:E1;
      [apply Qlt_bool_iff in E1
      | apply Qlt_bool_false_iff in E1;
        destruct (Qlt_bool d (30 # 100)) eqn:E2;
        [apply Qlt_bool_iff in E2 | apply Qlt_bool_false_iff in E2]];
      intuition (try discriminate; try reflexivity; try lra).
Qed.

(** The groups of the specification's scenario: the mean of the group of
    estimate 1 is 3 hours, the global ratio is 18 hours over 6 points. *)
Example deviation_scenario :
  classify [(1, [2; 3; 4]); (3, [9])] (1, [2; 3; 4]) = OnTarget /\
  classify [(1, [2; 3; 4]); (3, [9])] (3, [9]) = OnTarget /\
  classify [(1, [2; 3; 4]); (3, [3])] (3, [3]) = HighDeviation /\
  classify [(0, [2])] (0, [2]) = Undefined.
Proof. repeat split; vm_compute; reflexivity. Qed.

(* ================================================================== *)
(** * The boxplot of the whole pipeline *)

(** [createBoxplotData] never reads an undefined cell: every group it
    builds is non-empty, each of its statistics is ordered between the
    least and the greatest hours of its group, and no value of its four
    stacked datasets is negative. *)
Theorem createBoxplotData_ordered (now cutoffDate : JSDate)
    (issues : list JiraIssue) (timeFilter : string) :
  exists d,
    createBoxplotData now cutoffDate issues timeFilter = Some d /\
    Forall (fun st =>
              exists lo hi,
                chain (hoursOf (label st)
                         (processIssuesForCharts now cutoffDate issues
                                                 timeFilter))
                      st lo hi)
           (boxplotStats d) /\
    Forall (Forall (fun v => 0 <= v)) (bp_datasets d).
Proof.
  unfold createBoxplotData.
  destruct (boxplotOfGroups_defined
              (processIssuesForCharts now cutoffDate issues timeFilter))
    as (d & Hd & Hall & Hsets).
  assert (Hch : Forall (fun st =>
              exists lo hi,
                chain (hoursOf (label st)
                         (processIssuesForCharts now cutoffDate issues
                                                 timeFilter))
                      st lo hi)
           (boxplotStats d)).
  { eapply Forall_impl; [|exact Hall].
    intros st [Hne Hst].
    destruct (boxplotStat_chain (label st) _ Hne)
      as (st' & lo & hi & Hst' & Hch).
    rewrite Hst in Hst'. injection Hst' as <-.
    exists lo, hi. exact Hch. }
  exists d. split; [exact Hd|]. split; [exact Hch|].
  rewrite Hsets.
  repeat constructor; apply Forall_map;
    (eapply Forall_impl; [|exact Hch]); intros st (lo & hi & [])
    ; now apply -> Qle_minus_iff.
Qed.

Example boxplot_scenario :
  option_map boxplotStats
    (createBoxplotData march31_1000 march31_1000 scenarioIssues "all")
  = Some [ mkBoxplotStat (7200 / 3600) (10800 / 3600) (14400 / 3600)
             (Qmax (7200 / 3600)
                   (7200 / 3600 - (3 # 2) * (14400 / 3600 - 7200 / 3600)))
             (Qmin (14400 / 3600)
                   (14400 / 3600 + (3 # 2) * (14400 / 3600 - 7200 / 3600)))
             [] 3 1;
           mkBoxplotStat (32400 / 3600) (32400 / 3600) (32400 / 3600)
             (Qmax (32400 / 3600)
                   (32400 / 3600 - (3 # 2) * (32400 / 3600 - 32400 / 3600)))
             (Qmin (32400 / 3600)
                   (32400 / 3600 + (3 # 2) * (32400 / 3600 - 32400 / 3600)))
             [] 1 3 ].
Proof. vm_compute. reflexivity. Qed.

(* ================================================================== *)
(** * More on the time-window filter *)

Lemma filter_filter_same {A : Type} (f : A -> bool) (l : list A) :
  filter f (filter f l) = filter f l.
Proof.
  induction l as [|x l IH]; simpl; [reflexivity|].
  destruct (f x) eqn:E; simpl; [rewrite E, IH|]; auto.
Qed.

(** Filtering is idempotent, and the charts of a window are the charts
    that the filtered list (the one the issues panel shows) gives under the
    window "all", whatever the clock reads then. *)
Theorem filter_idempotent_and_composes (r r' : JSDate * JSDate)
    (issues : list JiraIssue) (w : string) :
  filterIssuesByTime (fst r) (snd r)
    (filterIssuesByTime (fst r) (snd r) issues w) w
  = filterIssuesByTime (fst r) (snd r) issues w
  /\ recompute r r r issues w
     = recompute r' r' r'
         (filterIssuesByTime (fst r) (snd r) issues w) "all".
Proof.
  split.
  - unfold filterIssuesByTime.
    destruct (String.eqb w "all"); [reflexivity|].
    destruct (cutoffOf (fst r) (snd r) w); [apply filter_filter_same | reflexivity].
  - unfold recompute, createBoxplotData, createScatterplotData,
      createHistogramData, processIssuesForCharts.
    now rewrite !filter_all.
Qed.

(** A window that computes no cut-off ("all", or any unknown string) keeps
    every issue, also one whose date does not parse; a window with a
    cut-off keeps exactly the issues whose date parses and is not before
    the cut-off. *)
Theorem filter_by_cutoff (now cutoffDate : JSDate) (issues : list JiraIssue)
    (w : string) :
  match cutoffOf now cutoffDate w with
  | None => filterIssuesByTime now cutoffDate issues w = issues
  | Some cutoff =>
      forall issue,
        In issue (filterIssuesByTime now cutoffDate issues w) <->
        In issue issues /\
        exists u, updated issue = Some u /\ (valueOf cutoff <= u)%Z
  end.
Proof.
  unfold filterIssuesByTime.
  destruct (cutoffOf now cutoffDate w) as [c|] eqn:E.
  - assert (Hw : String.eqb w "all" = false).
    { destruct (String.eqb_spec w "all") as [->|]; [discriminate E | reflexivity]. }
    rewrite Hw. intros issue. rewrite filter_In. unfold updatedSince.
    split; intros [Hin H]; (split; [exact Hin|]).
    + destruct (updated issue) as [u|]; [|discriminate].
      exists u. split; [reflexivity|]. now apply Z.leb_le.
    + destruct H as (u & -> & H). now apply Z.leb_le.
  - now destruct (String.eqb w "all").
Qed.

(* ================================================================== *)
(** * More on the record extraction *)







Lemma Qdiv_3600_zero (s : Q) : s / 3600 == 0 <-> s == 0.
Proof.
  split; intros H.
  - setoid_replace s with (s / 3600 * 3600) by (field; discriminate).
    rewrite H. ring.
  - rewrite H. reflexivity.
Qed.

(** For durations that are not negative, an issue has no hours exactly
    when none of its three sources holds a positive number of seconds;
    its hours are never negative. *)
Theorem no_hours_iff_no_source (issue : JiraIssue) :
  nonNegativeSeconds issue ->
  0 <= extractTimeSpentHours issue /\
  (extractTimeSpentHours issue == 0 <->
     optNum (timespent issue) == 0 /\
     optNum (trackedSeconds issue) == 0 /\
     sumSeconds (groupOr (worklogEntries issue)) == 0).
Proof.
  intros (Ha & Hb & Hc).
  pose proof (sumSeconds_nonneg _ Hc) as Hs.
  destruct (worklog_source (worklogEntries issue) Hc) as [_ Hw].
  unfold extractTimeSpentHours.
  destruct (source_cases (timespent issue) Ha)
    as [(a & Ea & Ta & Pa & _) | (Ta & Za & _)]; rewrite Ta.
  - rewrite Ea in *. simpl optNum in *. split.
    + apply Qle_shift_div_l; [reflexivity|]. now rewrite Qmult_0_l.
    + rewrite Qdiv_3600_zero. split; [|tauto].
      intros H. rewrite H in Pa. discriminate Pa.
  - destruct (source_cases (trackedSeconds issue) Hb)
      as [(b & Eb & Tb & Pb & _) | (Tb & Zb & _)]; rewrite Tb.
    + rewrite Eb in *. simpl optNum in *. split.
      * apply Qle_shift_div_l; [reflexivity|]. now rewrite Qmult_0_l.
      * rewrite Qdiv_3600_zero. split; [|tauto].
        intros H. rewrite H in Pb. discriminate Pb.
    + rewrite Hw. split.
      * apply Qle_shift_div_l; [reflexivity|]. now rewrite Qmult_0_l.
      * rewrite Qdiv_3600_zero. tauto.
Qed.

Lemma no_hours_iff_no_source_witness :
  nonNegativeSeconds issueThreeSources /\
  0 <= extractTimeSpentHours issueThreeSources.
Proof.
  split; [exact issueThreeSources_nonNegative|].
  exact (proj1 (no_hours_iff_no_source issueThreeSources
                  issueThreeSources_nonNegative)).
Defined.

(* ================================================================== *)
(** * More on the groups of the boxplot and of the histogram *)

Lemma keys_pushGroup (groups : list (Q * list Q)) (sp h : Q) :
  map fst (pushGroup groups sp h)
  = if memNum sp (map fst groups) then map fst groups
    else map fst groups ++ [sp].
Proof.
  induction groups as [|[k v] rest IH]; simpl; [reflexivity|].
  destruct (Qeq_bool k sp); simpl; [reflexivity|].
  rewrite IH. now destruct (memNum sp (map fst rest)).
Qed.

Lemma keys_fold (l : list ProcessedIssue) :
  forall acc,
    map fst (fold_left groupStep l acc)
    = fold_left (fun seen x => if memNum x seen then seen else seen ++ [x])
                (map storyPoints (filter hasBoth l)) (map fst acc).
Proof.
  induction l as [|issue l IH]; intros acc; simpl; [reflexivity|].
  rewrite IH. unfold groupStep. fold (hasBoth issue).
  destruct (hasBoth issue); simpl; [|reflexivity].
  now rewrite keys_pushGroup.
Qed.

(** The keys of the groups are the distinct estimates of the records with
    both fields positive, in order of first occurrence. *)
Lemma keys_storyPointGroups (l : list ProcessedIssue) :
  map fst (storyPointGroups l)
  = uniqueNums (map storyPoints (filter hasBoth l)).
Proof. unfold storyPointGroups, uniqueNums. now rewrite keys_fold. Qed.

Lemma mapM_Forall2 {A B : Type} (f : A -> option B) (l : list A) :
  forall ys, mapM f l = Some ys -> Forall2 (fun x y => f x = Some y) l ys.
Proof.
  induction l as [|x l IH]; simpl; intros ys H.
  - injection H as <-. constructor.
  - destruct (f x) as [y|] eqn:E; simpl in H; [|discriminate].
    destruct (mapM f l) as [ys'|]; simpl in H; [|discriminate].
    injection H as <-. constructor; auto.
Qed.

Lemma boxplotStat_count_label (sp : Q) (group : list Q) (st : BoxplotStat) :
  boxplotStat sp group = Some st -> label st = sp /\ count st = length group.
Proof.
  unfold boxplotStat. cbv zeta. intros H.
  repeat match type of H with
         | obind ?m _ = Some _ =>
             destruct m; simpl in H; [|discriminate]
         end.
  injection H as <-. simpl. split; [reflexivity | apply sortNum_length].
Qed.

(** The labels and the counts of the boxplot statistics. *)
Lemma boxplot_labels_counts (l : list ProcessedIssue) (d : BoxplotData) :
  boxplotOfGroups (storyPointGroups l) = Some d ->
  bp_labels d = map label (boxplotStats d) /\
  map label (boxplotStats d)
  = sortNum (uniqueNums (map storyPoints (filter hasBoth l))) /\
  map count (boxplotStats d)
  = map (fun k => length (hoursOf k l)) (map label (boxplotStats d)).
Proof.
  unfold boxplotOfGroups. rewrite keys_storyPointGroups.
  set (us := sortNum (uniqueNums (map storyPoints (filter hasBoth l)))).
  destruct (mapM _ us) as [stats|] eqn:E; simpl; [|discriminate].
  intros [= <-]. simpl. split; [reflexivity|].
  apply mapM_Forall2 in E.
  induction E as [|u st us' stats' Hst _ IH]; simpl; [split; reflexivity|].
  destruct IH as [IH1 IH2].
  destruct (lookupGroup (storyPointGroups l) u) as [g|] eqn:Eg;
    simpl in Hst; [|discriminate].
  destruct (lookupGroup_storyPointGroups l u g Eg) as [-> _].
  destruct (boxplotStat_count_label _ _ _ Hst) as [Hl Hc].
  rewrite Hl, Hc, IH1. split; [reflexivity|].
  f_equal. rewrite <- IH1. exact IH2.
Qed.

(** A sorted list of distinct numbers is strictly ascending. *)
Lemma sorted_distinct_strict (l : list Q) :
  StronglySorted Qle l -> (forall z, cnt z l <= 1)%nat -> StronglySorted Qlt l.
Proof.
  induction 1 as [|x l Hs IH Hall]; intros Hd; [constructor|].
  assert (Hx : cnt x l = 0%nat).
  { specialize (Hd x). unfold cnt in *. simpl in Hd.
    assert (Qeq_bool x x = true) as E by (apply Qeq_bool_iff; reflexivity).
    rewrite E in Hd. simpl in Hd. lia. }
  constructor.
  - apply IH. intros z. specialize (Hd z). unfold cnt in *. simpl in Hd.
    destruct (Qeq_bool z x); simpl in Hd; lia.
  - rewrite Forall_forall in *. intros y Hy.
    destruct (proj1 (Qle_lteq x y) (Hall y Hy)) as [Hlt | Heq]; [exact Hlt|].
    exfalso. unfold cnt in Hx.
    assert (Hf : In y (filter (fun u => Qeq_bool x u) l)).
    { apply filter_In. split; [exact Hy|]. now apply Qeq_bool_iff. }
    destruct (filter (fun u => Qeq_bool x u) l); [contradiction | discriminate].
Qed.

Lemma uniqueNums_distinct (xs : list Q) (z : Q) :
  (cnt z (sortNum (uniqueNums xs)) <= 1)%nat.
Proof.
  rewrite <- (cnt_perm z _ _ (sortNum_perm (uniqueNums xs))).
  destruct (uniqueNums_fold xs [] (fun z => Nat.le_0_l 1)) as (H1 & _ & _).
  apply H1.
Qed.

Lemma uniqueNums_strict (xs : list Q) :
  StronglySorted Qlt (sortNum (uniqueNums xs)).
Proof.
  apply sorted_distinct_strict; [apply sortNum_sorted|].
  apply uniqueNums_distinct.
Qed.

Lemma filter_both_eq (u : Q) (l : list ProcessedIssue) :
  filter (fun issue => hasBoth issue && Qeq_bool (storyPoints issue) u) l
  = filter (fun issue => Qeq_bool (storyPoints issue) u) (filter hasBoth l).
Proof.
  induction l as [|p l IH]; simpl; [reflexivity|].
  destruct (hasBoth p); simpl; [|exact IH].
  destruct (Qeq_bool (storyPoints p) u); now rewrite IH.
Qed.

Lemma hoursOf_length (u : Q) (l : list ProcessedIssue) :
  length (hoursOf u l)
  = length (filter (fun issue => Qeq_bool (storyPoints issue) u)
                   (filter hasBoth l)).
Proof.
  unfold hoursOf. rewrite length_map. fold hasBoth.
  change (fun issue : ProcessedIssue =>
            Qgt0 (storyPoints issue) && Qgt0 (timeSpentHours issue)
            && Qeq_bool (storyPoints issue) u)
    with (fun issue => hasBoth issue && Qeq_bool (storyPoints issue) u).
  now rewrite filter_both_eq.
Qed.

(** The group sizes add up to the number of records with both fields
    positive. *)
Lemma group_sizes_total (l : list ProcessedIssue) :
  list_sum (map (fun k => length (hoursOf k l))
                (sortNum (uniqueNums (map storyPoints (filter hasBoth l)))))
  = length (filter hasBoth l).
Proof.
  rewrite <- (groups_partition
                (sortNum (uniqueNums (map storyPoints (filter hasBoth l))))
                (filter hasBoth l)).
  - f_equal. apply map_ext. intros k. apply hoursOf_length.
  - intros p Hp. apply uniqueNums_once. now apply in_map.
Qed.

Lemma uniqueNums_fold_In (xs : list Q) :
  forall seen k,
    In k (fold_left (fun seen x => if memNum x seen then seen else seen ++ [x])
                    xs seen) ->
    In k seen \/ In k xs.
Proof.
  induction xs as [|x xs IH]; intros seen k H; simpl in *; [auto|].
  apply IH in H as [H | H]; [|auto].
  destruct (memNum x seen); [auto|].
  apply in_app_or in H as [H | [<- | []]]; auto.
Qed.

Lemma uniqueNums_In (xs : list Q) (k : Q) : In k (uniqueNums xs) -> In k xs.
Proof.
  intros H. apply uniqueNums_fold_In in H as [[] | H]. exact H.
Qed.

Lemma cnt_pos_exists (x : Q) (l : list Q) :
  (1 <= cnt x l)%nat -> exists k, In k l /\ x == k.
Proof.
  unfold cnt. intros H.
  destruct (filter (fun u => Qeq_bool x u) l) as [|k rest] eqn:E;
    [simpl in H; lia|].
  assert (Hk : In k (filter (fun u => Qeq_bool x u) l)) by (rewrite E; now left).
  apply filter_In in Hk as [Hin Hq]. exists k. split; [exact Hin|].
  now apply Qeq_bool_iff.
Qed.

(** The boxplot has one label for each distinct estimate among the
    records with both fields positive, and its labels are strictly
    ascending. *)
Theorem boxplot_labels_distinct_ascending (now cutoffDate : JSDate)
    (issues : list JiraIssue) (timeFilter : string) :
  exists d,
    createBoxplotData now cutoffDate issues timeFilter = Some d /\
    bp_labels d = map label (boxplotStats d) /\
    StronglySorted Qlt (bp_labels d) /\
    (forall k, In k (bp_labels d) ->
       exists p, In p (processIssuesForCharts now cutoffDate issues timeFilter)
                 /\ hasBoth p = true /\ storyPoints p = k) /\
    (forall p, In p (processIssuesForCharts now cutoffDate issues timeFilter) ->
       hasBoth p = true ->
       exists k, In k (bp_labels d) /\ storyPoints p == k).
Proof.
  unfold createBoxplotData.
  set (l := processIssuesForCharts now cutoffDate issues timeFilter).
  destruct (boxplotOfGroups_defined l) as (d & Hd & _).
  destruct (boxplot_labels_counts l d Hd) as (H1 & H2 & _).
  exists d. split; [exact Hd|]. split; [exact H1|].
  rewrite H1, H2. split; [apply uniqueNums_strict|]. split.
  - intros k Hk. apply (proj1 (sortNum_In _ _)) in Hk.
    apply uniqueNums_In in Hk. apply in_map_iff in Hk as (p & <- & Hp).
    apply filter_In in Hp as [Hp Hb]. exists p. auto.
  - intros p Hp Hb. apply cnt_pos_exists.
    rewrite (uniqueNums_once (map storyPoints (filter hasBoth l))
                             (storyPoints p)); [lia|].
    apply in_map. apply filter_In. auto.
Qed.

(** Each count of the boxplot is the number of records of that estimate
    with both fields positive (at least one), and the counts add up to the
    number of all such records: no record is lost or counted twice. *)
Theorem boxplot_counts_complete (now cutoffDate : JSDate)
    (issues : list JiraIssue) (timeFilter : string) :
  exists d,
    createBoxplotData now cutoffDate issues timeFilter = Some d /\
    Forall (fun st =>
              count st
              = length (filter (fun p => hasBoth p
                                         && Qeq_bool (storyPoints p) (label st))
                         (processIssuesForCharts now cutoffDate issues
                                                 timeFilter))
              /\ (1 <= count st)%nat)
           (boxplotStats d) /\
    list_sum (map count (boxplotStats d))
    = length (filter hasBoth
                (processIssuesForCharts now cutoffDate issues timeFilter)).
Proof.
  unfold createBoxplotData.
  set (l := processIssuesForCharts now cutoffDate issues timeFilter).
  destruct (boxplotOfGroups_defined l) as (d & Hd & Hall & _).
  destruct (boxplot_labels_counts l d Hd) as (_ & H2 & H3).
  exists d. split; [exact Hd|]. split.
  - eapply Forall_impl; [|exact Hall]. intros st [Hne Hst].
    destruct (boxplotStat_count_label _ _ _ Hst) as [_ Hc].
    rewrite Hc. split.
    + unfold hoursOf. now rewrite length_map.
    + destruct (hoursOf (label st) l); [congruence | simpl; lia].
  - rewrite H3, H2. apply group_sizes_total.
Qed.

Lemma filter_all_true {A : Type} (f : A -> bool) (l : list A) :
  Forall (fun x => f x = true) l -> filter f l = l.
Proof.
  induction 1 as [|x l Hx _ IH]; simpl; [reflexivity|]. now rewrite Hx, IH.
Qed.

Lemma positive_sum_has_bucket (data : list nat) :
  (1 <= list_sum data)%nat ->
  existsb (fun count => (0 <? count)%nat) data = true.
Proof.
  intros H. destruct (existsb _ data) eqn:E; [reflexivity|].
  apply no_bucket_zero_sum in E. lia.
Qed.

Lemma both_order (l : list ProcessedIssue) :
  filter (fun issue => Qgt0 (timeSpentHours issue) && Qgt0 (storyPoints issue)) l
  = filter hasBoth l.
Proof. apply filter_ext. intros p. apply andb_comm. Qed.

(** The histogram before its last filter, which removes nothing: every
    series built has a record in some bucket. *)
Lemma histogramOf_unfiltered (l : list ProcessedIssue) :
  histogramOf l
  = map (fun u =>
           mkSeries (SP u)
             (bucketCounts
                (filter (fun issue => Qeq_bool (storyPoints issue) u)
                        (filter hasBoth l))))
        (sortNum (uniqueNums (map storyPoints (filter hasBoth l))))
    ++ (if (0 <? length
                   (filter (fun issue =>
                              Qgt0 (timeSpentHours issue)
                              && Qeq_bool (storyPoints issue) 0) l))%nat
        then [mkSeries NoStoryPoints
                (bucketCounts
                   (filter (fun issue =>
                              Qgt0 (timeSpentHours issue)
                              && Qeq_bool (storyPoints issue) 0) l))]
        else []).
Proof.
  unfold histogramOf. cbv zeta. rewrite both_order.
  set (both := filter hasBoth l).
  set (noSP := filter (fun issue =>
                 Qgt0 (timeSpentHours issue) && Qeq_bool (storyPoints issue) 0) l).
  set (us := sortNum (uniqueNums (map storyPoints both))).
  assert (Hboth : Forall (fun p => Qgt0 (timeSpentHours p) = true) both).
  { apply Forall_forall. intros p Hp. apply filter_In in Hp as [_ Hp].
    unfold hasBoth in Hp. now apply andb_true_iff in Hp as [_ Hp]. }
  assert (HnoSP : Forall (fun p => Qgt0 (timeSpentHours p) = true) noSP).
  { apply Forall_forall. intros p Hp. apply filter_In in Hp as [_ Hp].
    now apply andb_true_iff in Hp as [Hp _]. }
  assert (Hper : Forall (fun dataset =>
                   existsb (fun count => (0 <? count)%nat) (s_data dataset)
                   = true)
                 (map (fun u => mkSeries (SP u)
                          (bucketCounts
                             (filter (fun issue =>
                                        Qeq_bool (storyPoints issue) u) both)))
                      us)).
  { apply Forall_map. apply Forall_forall. intros u Hu. cbn [s_data].
    apply positive_sum_has_bucket.
    rewrite bucketCounts_sum by now apply Forall_filter.
    apply (proj1 (sortNum_In _ _)) in Hu. apply uniqueNums_In in Hu.
    apply in_map_iff in Hu as (p & <- & Hp).
    assert (Hin : In p (filter (fun issue =>
                    Qeq_bool (storyPoints issue) (storyPoints p)) both)).
    { apply filter_In. split; [exact Hp|]. apply Qeq_bool_iff. reflexivity. }
    destruct (filter _ both); [contradiction | simpl; lia]. }
  destruct (Nat.ltb_spec 0 (length noSP)) as [Hlen | Hlen].
  - apply filter_all_true. apply Forall_app. split; [exact Hper|].
    constructor; [|constructor]. cbn [s_data].
    apply positive_sum_has_bucket. rewrite (bucketCounts_sum noSP HnoSP). lia.
  - rewrite app_nil_r. now apply filter_all_true.
Qed.

(** The series of the histogram: every series has one count for each of
    the five bucket labels; the per-estimate series come first, in strictly
    ascending order of their estimate, and the "No Story Points" series,
    which is there exactly when some record has hours and an estimate of
    zero, comes last. *)
Theorem histogram_series_shape (now cutoffDate : JSDate)
    (issues : list JiraIssue) (timeFilter : string) :
  exists perEstimate catchAll,
    createHistogramData now cutoffDate issues timeFilter
    = perEstimate ++ catchAll /\
    Forall (fun series => length (s_data series) = 5%nat)
           (perEstimate ++ catchAll) /\
    map s_label perEstimate = map SP (seriesEstimates perEstimate) /\
    StronglySorted Qlt (seriesEstimates perEstimate) /\
    (catchAll = [] \/ exists data, catchAll = [mkSeries NoStoryPoints data]) /\
    (catchAll <> [] <->
     exists p, In p (processIssuesForCharts now cutoffDate issues timeFilter)
               /\ 0 < timeSpentHours p /\ storyPoints p == 0).
Proof.
  unfold createHistogramData.
  set (l := processIssuesForCharts now cutoffDate issues timeFilter).
  rewrite histogramOf_unfiltered.
  set (us := sortNum (uniqueNums (map storyPoints (filter hasBoth l)))).
  set (noSP := filter (fun issue =>
                 Qgt0 (timeSpentHours issue) && Qeq_bool (storyPoints issue) 0) l).
  assert (Hest : forall f,
            seriesEstimates (map (fun u => mkSeries (SP u) (f u)) us) = us).
  { intros f. unfold seriesEstimates. induction us as [|u us' IH]; simpl;
      [reflexivity | now rewrite IH]. }
  do 2 eexists. split; [reflexivity|]. split.
  - apply Forall_app. split.
    + apply Forall_map. apply Forall_forall. intros u _. reflexivity.
    + destruct (0 <? length noSP)%nat; repeat constructor.
  - split.
    + rewrite Hest, map_map. reflexivity.
    + split; [rewrite Hest; apply uniqueNums_strict|]. split.
      * destruct (0 <? length noSP)%nat; [right; eauto | left; reflexivity].
      * destruct (Nat.ltb_spec 0 (length noSP)) as [Hlen | Hlen].
        -- split; [intros _ | discriminate].
           destruct noSP as [|p rest] eqn:E; [simpl in Hlen; lia|].
           assert (Hp : In p noSP) by (rewrite E; now left).
           apply filter_In in Hp as [Hin Hp].
           apply andb_true_iff in Hp as [Hh Hz].
           exists p. split; [exact Hin|]. split.
           ++ now apply Qgt0_iff.
           ++ now apply Qeq_bool_iff.
        -- split; [congruence|]. intros (p & Hin & Hh & Hz). exfalso.
           assert (Hp : In p noSP).
           { apply filter_In. split; [exact Hin|]. apply andb_true_iff.
             split; [now apply Qgt0_iff | now apply Qeq_bool_iff]. }
           destruct noSP; [contradiction | simpl in Hlen; lia].
Qed.

(** The two grouped charts agree: the estimates of the histogram's
    per-estimate series are the labels of the boxplot, in the same order,
    and the total of each series is the count of the boxplot statistic of
    that estimate. *)
Theorem histogram_agrees_with_boxplot (now cutoffDate : JSDate)
    (issues : list JiraIssue) (timeFilter : string) :
  exists d,
    createBoxplotData now cutoffDate issues timeFilter = Some d /\
    seriesEstimates (createHistogramData now cutoffDate issues timeFilter)
    = bp_labels d /\
    seriesTotals (createHistogramData now cutoffDate issues timeFilter)
    = map count (boxplotStats d).
Proof.
  unfold createBoxplotData, createHistogramData.
  set (l := processIssuesForCharts now cutoffDate issues timeFilter).
  destruct (boxplotOfGroups_defined l) as (d & Hd & _).
  destruct (boxplot_labels_counts l d Hd) as (H1 & H2 & H3).
  exists d. split; [exact Hd|].
  rewrite histogramOf_unfiltered, H3, H1, H2.
  set (us := sortNum (uniqueNums (map storyPoints (filter hasBoth l)))).
  assert (Hboth : Forall (fun p => Qgt0 (timeSpentHours p) = true)
                         (filter hasBoth l)).
  { apply Forall_forall. intros p Hp. apply filter_In in Hp as [_ Hp].
    unfold hasBoth in Hp. now apply andb_true_iff in Hp as [_ Hp]. }
  unfold seriesEstimates, seriesTotals. rewrite !flat_map_app.
  replace (flat_map _ (if (0 <? _)%nat then _ else _)) with (@nil Q)
    by (destruct (0 <? _)%nat; reflexivity).
  replace (flat_map _ (if (0 <? _)%nat then _ else _)) with (@nil nat)
    by (destruct (0 <? _)%nat; reflexivity).
  rewrite !app_nil_r. clearbody us. split.
  - induction us as [|u us' IH]; simpl; [reflexivity | now rewrite IH].
  - induction us as [|u us' IH]; cbn [map flat_map s_label s_data app];
      [reflexivity|].
    rewrite IH. f_equal.
    rewrite bucketCounts_sum by now apply Forall_filter.
    symmetry. apply hoursOf_length.
Qed.

(* ================================================================== *)
(** * More on the boxplot statistics *)

Lemma filter_sorted (f : Q -> bool) (l : list Q) :
  StronglySorted Qle l -> StronglySorted Qle (filter f l).
Proof.
  induction 1 as [|x l Hs IH Hall]; simpl; [constructor|].
  destruct (f x); [|exact IH]. constructor; [exact IH|].
  now apply Forall_filter.
Qed.

Lemma filter_nil_iff {A : Type} (f : A -> bool) (l : list A) :
  filter f l = [] <-> forall x, In x l -> f x = false.
Proof.
  split.
  - intros H x Hx. destruct (f x) eqn:E; [|reflexivity].
    assert (Hin : In x (filter f l)) by (apply filter_In; auto).
    rewrite H in Hin. contradiction.
  - intros H. induction l as [|x l IH]; simpl; [reflexivity|].
    rewrite (H x (or_introl eq_refl)). apply IH. intros; apply H; now right.
Qed.

(** The outliers of a group are its values strictly outside the whiskers,
    in ascending order; the three quartiles are values of the group and
    never outliers; and there is no outlier exactly when the whiskers are
    the least and the greatest value of the group. *)
Theorem outliers_outside_whiskers (sp : Q) (group : list Q) :
  group <> [] ->
  exists st lo hi,
    boxplotStat sp group = Some st /\
    In lo group /\ In hi group /\
    (forall h, In h group -> lo <= h <= hi) /\
    (forall h, In h (outliers st) <->
       In h group /\ (h < lowerWhisker st \/ upperWhisker st < h)) /\
    StronglySorted Qle (outliers st) /\
    In (q1 st) group /\ In (median st) group /\ In (q3 st) group /\
    ~ In (q1 st) (outliers st) /\ ~ In (median st) (outliers st) /\
    ~ In (q3 st) (outliers st) /\
    (outliers st = [] <->
       lowerWhisker st == lo /\ upperWhisker st == hi).
Proof.
  intros Hne.
  destruct (boxplotStat_some sp group Hne)
    as (a & b & c & lo0 & hi0 & Ha & Hb & Hc & _ & _ & Hst).
  destruct (boxplotStat_chain sp group Hne) as (st & lo & hi & Hst' & Hch).
  cbv zeta in *. rewrite Hst in Hst'. injection Hst' as <-.
  destruct Hch as [Hlo Hhi Hrange _ _ H1 H2 H3 H4 H5 H6].
  cbn [q1 median q3 lowerWhisker upperWhisker outliers] in *.
  set (lw := Qmax lo0 (a - (3 # 2) * (c - a))) in *.
  set (uw := Qmin hi0 (c + (3 # 2) * (c - a))) in *.
  assert (Hout : forall h,
            In h (filter (fun h => Qlt_bool h lw || Qlt_bool uw h)
                         (sortNum group)) <->
            In h group /\ (h < lw \/ uw < h)).
  { intros h. rewrite filter_In, sortNum_In, orb_true_iff, !Qlt_bool_iff.
    reflexivity. }
  assert (Hin : forall x, lw <= x -> x <= uw ->
            ~ In x (filter (fun h => Qlt_bool h lw || Qlt_bool uw h)
                           (sortNum group))).
  { intros x Hl Hu Hx. apply Hout in Hx as [_ [Hx | Hx]].
    - exact (Qlt_not_le _ _ Hx Hl).
    - exact (Qlt_not_le _ _ Hx Hu). }
  eexists; exists lo, hi. split; [exact Hst|].
  cbn [q1 median q3 lowerWhisker upperWhisker outliers].
  split; [exact Hlo|]. split; [exact Hhi|]. split; [exact Hrange|].
  split; [exact Hout|].
  split; [apply filter_sorted, sortNum_sorted|].
  split; [apply sortNum_In; eapply js_index_In; eauto|].
  split; [apply sortNum_In; eapply js_index_In; eauto|].
  split; [apply sortNum_In; eapply js_index_In; eauto|].
  split; [apply Hin; [exact H2 | repeat (eapply Qle_trans; eauto)]|].
  split; [apply Hin; [eapply Qle_trans; eauto | eapply Qle_trans; eauto]|].
  split; [apply Hin; [repeat (eapply Qle_trans; eauto) | exact H5]|].
  rewrite filter_nil_iff. split.
  - intros Hnone. split.
    + apply Qle_antisym; [|exact H1].
      apply Qlt_bool_false_iff.
      pose proof (Hnone lo (proj2 (sortNum_In _ _) Hlo)) as E.
      now apply orb_false_iff in E as [E _].
    + apply Qle_antisym; [exact H6|].
      apply Qlt_bool_false_iff.
      pose proof (Hnone hi (proj2 (sortNum_In _ _) Hhi)) as E.
      now apply orb_false_iff in E as [_ E].
  - intros [El Eu] h Hh. apply (proj1 (sortNum_In _ _)) in Hh.
    destruct (Hrange h Hh) as [Hl Hu].
    apply orb_false_iff. split; apply Qlt_bool_false_iff.
    + now rewrite El.
    + now rewrite Eu.
Qed.

Lemma outliers_outside_whiskers_witness :
  exists st,
    boxplotStat 2 [1; 2; 2; 3; 40] = Some st /\
    forall h, In h (outliers st) <->
      In h [1; 2; 2; 3; 40]
      /\ (h < lowerWhisker st \/ upperWhisker st < h).
Proof.
  destruct (outliers_outside_whiskers 2 [1; 2; 2; 3; 40] (nonempty_cons _ _))
    as (st & lo & hi & Hst & _ & _ & _ & Hout & _).
  exists st. split; [exact Hst | exact Hout].
Defined.

(** A group with a far value: the upper fence, not the greatest value, is
    the upper whisker, and the far value is the one outlier. *)
Example outlier_scenario :
  option_map outliers (boxplotStat 2 [1; 2; 2; 3; 40]) = Some [40] /\
  option_map upperWhisker (boxplotStat 2 [1; 2; 2; 3; 40])
  = Some (Qmin 40 (3 + (3 # 2) * (3 - 2))).
Proof. split; vm_compute; reflexivity. Qed.

(* ================================================================== *)
(** * More on the regression *)

(** The x-range of the trend line does not depend on the fit: for two or
    more points with estimates that are not negative, the two end points
    have finite x-coordinates [0 <= x1 < x2] with every observed estimate
    between them, also when the slope is not finite. *)
Theorem trend_x_range_covers_points (data : list (Q * Q)) :
  (2 <= length data)%nat ->
  (forall p, In p data -> 0 <= fst p) ->
  exists x1 y1 x2 y2,
    points (calculateTrendLine data) = [(Fin x1, y1); (Fin x2, y2)] /\
    0 <= x1 /\ x1 < x2 /\
    forall p, In p data -> x1 <= fst p /\ fst p <= x2.
Proof.
  intros Hlen Hpos.
  assert (Hxs : map fst data <> []).
  { destruct data; [simpl in Hlen; lia | discriminate]. }
  destruct (jminList_spec _ Hxs) as (mn & Hmin & Hmn_in & Hmn).
  destruct (jmaxList_spec _ Hxs) as (mx & Hmax & Hmx_in & Hmx).
  assert (Hmn0 : 0 <= mn).
  { apply in_map_iff in Hmn_in as (p & <- & Hp). now apply Hpos. }
  assert (Hle : mn <= mx) by now apply Hmx.
  unfold calculateTrendLine.
  destruct (Nat.ltb_spec (length data) 2) as [|_]; [lia|].
  cbv zeta. cbn [points]. rewrite Hmin, Hmax.
  cbn [jsub jneg jadd].
  assert (Hr : exists r, jor (Fin (mx + - mn)) (Fin 1) = Fin r /\ 0 < r).
  { simpl. destruct (Qeq_bool (mx + - mn) 0) eqn:E.
    - exists 1. split; reflexivity.
    - exists (mx + - mn). split; [reflexivity|].
      apply Qle_lteq in Hle as [Hlt | Heq]; [lra|].
      exfalso. apply not_true_iff_false in E. apply E.
      apply Qeq_bool_iff. rewrite Heq. ring. }
  destruct Hr as (r & -> & Hr).
  cbn [jmul jsub jneg jadd].
  destruct (jmax_Fin 0 (mn + - (r * (1 # 10)))) as (x1 & Hx1 & Ex1).
  rewrite Hx1.
  do 4 eexists. split; [reflexivity|].
  assert (H0 : 0 <= x1) by (rewrite Ex1; apply Q.le_max_l).
  assert (H1 : x1 <= mn).
  { rewrite Ex1. apply Q.max_lub; [exact Hmn0 | lra]. }
  split; [exact H0|]. split; [lra|].
  intros p Hp. pose proof (in_map fst _ _ Hp) as Hin.
  pose proof (Hmn _ Hin). pose proof (Hmx _ Hin). split; lra.
Qed.

Lemma trend_x_range_covers_points_witness :
  exists x1 y1 x2 y2,
    points (calculateTrendLine [(2, 3); (2, 5)]) = [(Fin x1, y1); (Fin x2, y2)]
    /\ 0 <= x1 /\ x1 < x2.
Proof.
  destruct (trend_x_range_covers_points [(2, 3); (2, 5)])
    as (x1 & y1 & x2 & y2 & H & H0 & H1 & _).
  - simpl. lia.
  - intros p [<- | [<- | []]]; vm_compute; discriminate.
  - exists x1, y1, x2, y2. auto.
Defined.

(** The scatter chart has one point for each record with both fields
    positive.  With fewer than two points no trend-line dataset is pushed
    and slope and intercept are reported as 0; with two or more a trend line
    of exactly two end points is pushed, whatever the fit. *)
Theorem trend_line_presence (now cutoffDate : JSDate)
    (issues : list JiraIssue) (timeFilter : string) :
  length (sc_points (createScatterplotData now cutoffDate issues timeFilter))
  = length (filter hasBoth
              (processIssuesForCharts now cutoffDate issues timeFilter)) /\
  if (length (sc_points
                (createScatterplotData now cutoffDate issues timeFilter))
      <? 2)%nat
  then sc_trendLine (createScatterplotData now cutoffDate issues timeFilter)
       = None
       /\ sc_trend (createScatterplotData now cutoffDate issues timeFilter)
          = (Fin 0, Fin 0)
  else exists p1 p2,
      sc_trendLine (createScatterplotData now cutoffDate issues timeFilter)
      = Some [p1; p2].
Proof.
  unfold createScatterplotData, scatterOf. cbv zeta. cbn [sc_points].
  fold hasBoth.
  change (fun issue : ProcessedIssue =>
            Qgt0 (storyPoints issue) && Qgt0 (timeSpentHours issue))
    with hasBoth.
  split; [now rewrite length_map|].
  cbn [sc_trendLine sc_trend]. unfold calculateTrendLine.
  destruct (length (map _ (filter hasBoth _)) <? 2)%nat.
  - split; reflexivity.
  - cbv zeta. cbn [points]. do 2 eexists. reflexivity.
Qed.

(** The scatter chart and the boxplot agree: the number of points is the
    sum of the boxplot counts, and the estimate of every point is a label
    of the boxplot. *)
Theorem scatter_agrees_with_boxplot (now cutoffDate : JSDate)
    (issues : list JiraIssue) (timeFilter : string) :
  exists d,
    createBoxplotData now cutoffDate issues timeFilter = Some d /\
    length (sc_points (createScatterplotData now cutoffDate issues timeFilter))
    = list_sum (map count (boxplotStats d)) /\
    forall p,
      In p (sc_points (createScatterplotData now cutoffDate issues timeFilter))
      -> exists k, In k (bp_labels d) /\ fst p == k.
Proof.
  unfold createBoxplotData, createScatterplotData, scatterOf.
  cbv zeta. cbn [sc_points].
  change (fun issue : ProcessedIssue =>
            Qgt0 (storyPoints issue) && Qgt0 (timeSpentHours issue))
    with hasBoth.
  set (l := processIssuesForCharts now cutoffDate issues timeFilter).
  destruct (boxplotOfGroups_defined l) as (d & Hd & _).
  destruct (boxplot_labels_counts l d Hd) as (H1 & H2 & H3).
  exists d. split; [exact Hd|]. split.
  - rewrite H3, H2, group_sizes_total. apply length_map.
  - intros p Hp. apply in_map_iff in Hp as (issue & <- & Hissue). cbn [fst].
    rewrite H1, H2. apply cnt_pos_exists.
    rewrite (uniqueNums_once (map storyPoints (filter hasBoth l))
                             (storyPoints issue)); [lia|].
    now apply in_map.
Qed.


(* ================================================================== *)
(** * What is rendered *)

Lemma fold_groupStep_none (l : list ProcessedIssue) :
  (forall p, In p l -> hasBoth p = false) ->
  forall acc, fold_left groupStep l acc = acc.
Proof.
  induction l as [|p l IH]; intros H acc; simpl; [reflexivity|].
  unfold groupStep at 2. fold (hasBoth p).
  rewrite (H p (or_introl eq_refl)). apply IH. intros; apply H; now right.
Qed.

Lemma processed_In (now cutoffDate : JSDate) (issues : list JiraIssue)
    (w : string) (p : ProcessedIssue) :
  In p (processIssuesForCharts now cutoffDate issues w) <->
  exists issue,
    In issue (filterIssuesByTime now cutoffDate issues w) /\
    p = extract issue /\
    (0 < extractStoryPoints issue \/ 0 < extractTimeSpentHours issue).
Proof.
  unfold processIssuesForCharts. cbv zeta.
  rewrite filter_In, in_map_iff, orb_true_iff, !Qgt0_iff. split.
  - intros [(issue & <- & Hin) H]. exists issue. auto.
  - intros (issue & Hin & -> & H). split; [exists issue; auto | exact H].
Qed.

(** The placeholder is rendered, for any graph type, exactly when no
    issue of the window has a positive estimate or positive hours. *)
Theorem placeholder_iff_no_signal (r0 r1 : JSDate * JSDate)
    (issues : list JiraIssue) (timeFilter graphType : string) :
  renderRealChart r0 r1 issues timeFilter graphType = NoDataPlaceholder <->
  forall issue,
    In issue (filterIssuesByTime (fst r0) (snd r0) issues timeFilter) ->
    extractStoryPoints issue <= 0 /\ extractTimeSpentHours issue <= 0.
Proof.
  unfold renderRealChart. cbv zeta.
  destruct (processIssuesForCharts (fst r0) (snd r0) issues timeFilter)
    as [|p rest] eqn:E; cbn [length Nat.eqb].
  - split; [intros _ | reflexivity].
    intros issue Hin.
    destruct (Qlt_le_dec 0 (extractStoryPoints issue)) as [Hs | Hs].
    { exfalso.
      assert (Hp : In (extract issue)
                      (processIssuesForCharts (fst r0) (snd r0) issues
                                              timeFilter)).
      { apply processed_In. exists issue. auto. }
      rewrite E in Hp. contradiction. }
    destruct (Qlt_le_dec 0 (extractTimeSpentHours issue)) as [Hh | Hh].
    { exfalso.
      assert (Hp : In (extract issue)
                      (processIssuesForCharts (fst r0) (snd r0) issues
                                              timeFilter)).
      { apply processed_In. exists issue. auto. }
      rewrite E in Hp. contradiction. }
    split; assumption.
  - split.
    + intros H. exfalso.
      destruct (String.eqb graphType "boxplot"); [discriminate|].
      destruct (String.eqb graphType "scatterplot"); [discriminate|].
      destruct (String.eqb graphType "histogram"); discriminate.
    + intros H. exfalso.
      assert (Hp : In p (processIssuesForCharts (fst r0) (snd r0) issues
                                                timeFilter))
        by (rewrite E; now left).
      apply processed_In in Hp as (issue & Hin & _ & Hsig).
      destruct (H issue Hin) as [Hs Hh].
      destruct Hsig as [Hsig | Hsig];
        [exact (Qlt_not_le _ _ Hsig Hs) | exact (Qlt_not_le _ _ Hsig Hh)].
Qed.

(** When the issues of the window carry estimates but no hours, the
    placeholder is not rendered, and yet every chart is empty: the boxplot
    has no label, the scatter chart has neither point nor trend line (and its
    suggested axis maximum is [-Infinity]), the histogram has no series. *)
Theorem estimates_only_render_empty_charts (r : JSDate * JSDate)
    (issues : list JiraIssue) (timeFilter : string) :
  Exists (fun issue => 0 < extractStoryPoints issue)
         (filterIssuesByTime (fst r) (snd r) issues timeFilter) ->
  Forall (fun issue => extractTimeSpentHours issue <= 0)
         (filterIssuesByTime (fst r) (snd r) issues timeFilter) ->
  renderRealChart r r issues timeFilter "boxplot"
  = BoxplotChart (Some (mkBoxplotData [] [[]; []; []; []] [])) /\
  renderRealChart r r issues timeFilter "scatterplot"
  = ScatterChart (mkScatter [] None (Fin 0, Fin 0)) NegInf /\
  renderRealChart r r issues timeFilter "histogram" = HistogramChart [].
Proof.
  intros Hex Hall.
  set (l := processIssuesForCharts (fst r) (snd r) issues timeFilter).
  assert (Hne : (length l =? 0)%nat = false).
  { apply Exists_exists in Hex as (issue & Hin & Hs).
    assert (Hp : In (extract issue) l).
    { apply processed_In. exists issue. auto. }
    destruct l; [contradiction | reflexivity]. }
  assert (Hh : forall p, In p l -> Qgt0 (timeSpentHours p) = false).
  { intros p Hp. apply processed_In in Hp as (issue & Hin & -> & _).
    rewrite Forall_forall in Hall. specialize (Hall issue Hin).
    cbn [extract timeSpentHours]. apply not_true_iff_false. intros H.
    apply Qgt0_iff in H. exact (Qlt_not_le _ _ H Hall). }
  assert (Hgroups : storyPointGroups l = []).
  { unfold storyPointGroups. apply fold_groupStep_none.
    intros p Hp. unfold hasBoth. rewrite (Hh p Hp). apply andb_false_r. }
  assert (Hscatter : filter (fun issue =>
                       Qgt0 (storyPoints issue) && Qgt0 (timeSpentHours issue)) l
                     = []).
  { apply filter_nil_iff. intros p Hp. rewrite (Hh p Hp). apply andb_false_r. }
  assert (Hboth : filter (fun issue =>
                    Qgt0 (timeSpentHours issue) && Qgt0 (storyPoints issue)) l
                  = []).
  { apply filter_nil_iff. intros p Hp. now rewrite (Hh p Hp). }
  assert (HnoSP : filter (fun issue =>
                    Qgt0 (timeSpentHours issue)
                    && Qeq_bool (storyPoints issue) 0) l
                  = []).
  { apply filter_nil_iff. intros p Hp. now rewrite (Hh p Hp). }
  unfold renderRealChart. cbv zeta. fold l. rewrite Hne.
  cbn [String.eqb Ascii.eqb Bool.eqb andb].
  unfold createBoxplotData, createScatterplotData, createHistogramData.
  fold l. repeat split.
  - now rewrite Hgroups.
  - unfold suggestedMax, scatterOf. cbv zeta. now rewrite Hscatter.
  - unfold histogramOf. cbv zeta. now rewrite Hboth, HnoSP.
Qed.

Lemma estimates_only_render_empty_charts_witness :
  renderRealChart (march31_1000, march31_1000) (march31_1000, march31_1000)
                  estimateOnlyIssues "all" "histogram"
  = HistogramChart [].
Proof.
  refine (proj2 (proj2 (estimates_only_render_empty_charts
                          (march31_1000, march31_1000)
                          estimateOnlyIssues "all" _ _))).
  - apply Exists_cons_hd. vm_compute. reflexivity.
  - repeat constructor; vm_compute; discriminate.
Defined.

(* ================================================================== *)
(** * The project search *)

Lemma includes_empty (s : string) : includes s EmptyString = true.
Proof. destruct s; reflexivity. Qed.

Lemma prefix_refl (s : string) : String.prefix s s = true.
Proof.
  induction s as [|c s IH]; simpl; [reflexivity|].
  destruct (Ascii.ascii_dec c c); [exact IH | congruence].
Qed.

Lemma includes_refl (s : string) : includes s s = true.
Proof.
  destruct s; [reflexivity|]. cbn [includes]. now rewrite prefix_refl.
Qed.

(** A search query that is empty in lower case keeps every project, and
    a project whose name or key equals the query up to case is always
    kept. *)
Theorem project_search_keeps (toLowerCase : string -> string)
    (projects : list JiraProject) (searchQuery : string) :
  (toLowerCase searchQuery = EmptyString ->
   filteredProjects toLowerCase projects searchQuery = projects) /\
  (forall project,
     In project projects ->
     toLowerCase (project_name project) = toLowerCase searchQuery
     \/ toLowerCase (project_key project) = toLowerCase searchQuery ->
     In project (filteredProjects toLowerCase projects searchQuery)).
Proof.
  unfold filteredProjects. split.
  - intros ->. apply filter_all_true. apply Forall_forall. intros p _.
    now rewrite includes_empty.
  - intros p Hin H. apply filter_In. split; [exact Hin|].
    apply orb_true_iff.
    destruct H as [-> | ->]; [left | right]; apply includes_refl.
Qed.

Lemma project_search_keeps_witness :
  lowerString EmptyString = EmptyString /\
  filteredProjects lowerString
    [mkProject "10000" "SPS" "Story Point Sleuth"] EmptyString
  = [mkProject "10000" "SPS" "Story Point Sleuth"].
Proof.
  split; [reflexivity|].
  apply (proj1 (project_search_keeps lowerString
                  [mkProject "10000" "SPS" "Story Point Sleuth"]
                  EmptyString)).
  reflexivity.
Defined.
